(** * Limine bootloader deployment of the Polaris installer profile

    A shallow embedding of [InstallerHack._add_limine_bootloader]
    (src/main.py) and the properties of the files it writes.

    The method is sequential Python that talks to the outside world through
    the installer library: it straps a package, creates directories, copies
    files, runs a command in a chroot and writes two text files.  Here every
    such call is an [Event]; a computation in the monad [M] threads the
    installer's mutable state (helper flags, written text files, and the
    trace of events performed so far) and may raise a Python exception.
    Whether an external call fails, and with which exception, is decided by
    the environment [Env], exactly as the world decides it for the script. *)

From Stdlib Require Import String Ascii List Bool Arith Lia.
From stdpp Require Import base option list gmap strings.

Local Open Scope string_scope.
Local Open Scope list_scope.

(** ** Strings *)

Module Str.

(** The two characters that a Rocq literal cannot hold conveniently. *)
Definition nl : string := String "010"%char EmptyString.
Definition dquote : string := String "034"%char EmptyString.

(** [sep.join(xs)] *)
Definition join (sep : string) (xs : list string) : string :=
  String.concat sep xs.

(** [c in s] for a single character. *)
Fixpoint has_char (c : ascii) (s : string) : bool :=
  match s with
  | EmptyString => false
  | String a s' => if Ascii.eqb a c then true else has_char c s'
  end.

(** [s.split(c)] for a one-character separator: never returns the empty
    list, keeps empty fields. *)
Fixpoint split_on (c : ascii) (s : string) : list string :=
  match s with
  | EmptyString => [EmptyString]
  | String a s' =>
      if Ascii.eqb a c then EmptyString :: split_on c s'
      else match split_on c s' with
           | [] => [String a EmptyString]
           | w :: ws => String a w :: ws
           end
  end.

(** [s.split('\n')] *)
Definition lines (s : string) : list string := split_on "010"%char s.

(** [s.startswith(p)] *)
Fixpoint starts_with (p s : string) : bool :=
  match p, s with
  | EmptyString, _ => true
  | String a p', String b s' => Ascii.eqb a b && starts_with p' s'
  | String _ _, EmptyString => false
  end.

(** [s.removeprefix(p)] when [s] starts with [p]. *)
Fixpoint strip_prefix (p s : string) : option string :=
  match p, s with
  | EmptyString, _ => Some s
  | String a p', String b s' =>
      if Ascii.eqb a b then strip_prefix p' s' else None
  | String _ _, EmptyString => None
  end.

Definition is_empty (s : string) : bool :=
  match s with EmptyString => true | _ => false end.

(** [s[-1]], if there is one. *)
Fixpoint last_char (s : string) : option ascii :=
  match s with
  | EmptyString => None
  | String c s' =>
      match last_char s' with
      | None => Some c
      | Some d => Some d
      end
  end.

End Str.

(** ** Paths

    A [pathlib.PurePosixPath] after parsing: whether it is anchored at the
    root, and its components.  Components are non-empty, hold no slash and
    are not a single dot, which is what pathlib's parser guarantees. *)

Record Path := mkPath { anchored : bool; parts : list string }.

Module PathOps.

(** [str(p)] *)
Definition str (p : Path) : string :=
  if anchored p then "/" +:+ Str.join "/" (parts p)
  else match parts p with
       | [] => "."
       | _ => Str.join "/" (parts p)
       end.

(** [p / 'name'] for a literal single component. *)
Definition div (p : Path) (name : string) : Path :=
  mkPath (anchored p) (parts p ++ [name]).

(** [p / q] for a path [q]: an anchored right operand replaces the left. *)
Definition join (p q : Path) : Path :=
  if anchored q then q else mkPath (anchored p) (parts p ++ parts q).

(** [p.relative_to('/')]: [None] stands for the ValueError pathlib raises
    when [p] is not anchored. *)
Definition relative_to_root (p : Path) : option Path :=
  if anchored p then Some (mkPath false (parts p)) else None.

(** [str(x)] for an [Optional[Path]], as an f-string renders it. *)
Definition str_opt (p : option Path) : string :=
  match p with Some q => str q | None => "None" end.

Definition component_ok (s : string) : bool :=
  negb (Str.is_empty s) && negb (Str.has_char "/"%char s)
  && negb (String.eqb s ".").

Definition wf (p : Path) : bool := forallb component_ok (parts p).

End PathOps.

Notation "p // name" := (PathOps.div p name) (at level 40, left associativity).

(** ** Exceptions and results *)

Inductive exn : Type :=
| ValueError (msg : string)
| DiskError (msg : string)          (* archinstall.lib.exceptions.DiskError *)
| ExternalError (cls msg : string). (* OSError, SysCallError, ... *)

(** [str(err)] *)
Definition exn_str (e : exn) : string :=
  match e with
  | ValueError m => m
  | DiskError m => m
  | ExternalError _ m => m
  end.

Definition is_DiskError (e : exn) : bool :=
  match e with DiskError _ => true | _ => false end.

Inductive result (A : Type) : Type :=
| Ok (a : A)
| Raise (e : exn).
Arguments Ok {A} a.
Arguments Raise {A} e.

(** ** The installer's data *)

(** [disk.PartitionModification], with the two fields the method reads. *)
Record PartitionModification := {
  dev_path : option Path;
  mountpoint : option Path
}.

Record LvmVolume := { lv_dev_path : option Path }.

(** [root: disk.PartitionModification | disk.LvmVolume] *)
Inductive RootSpec : Type :=
| RootPartition (p : PartitionModification)
| RootLvm (v : LvmVolume).

(** The fields of [Installer] that the method reads but never writes. *)
Record Installer := {
  target : Path;
  kernels : list string
}.

(** ** Effects *)

Inductive Event : Type :=
| ELog (level msg : string)              (* debug(...), info(...) *)
| EStrap (pkg : string)                  (* self.pacman.strap(pkg) *)
| EMkdir (p : Path)                      (* p.mkdir(parents=True, exist_ok=True) *)
| ECopy (src dst : Path)                 (* shutil.copy(src, dst) *)
| ESysCommand (cmd : string)             (* SysCommand(cmd, peek_output=True) *)
| EWriteText (p : Path) (content : string) (* p.write_text(content) *)
| ESetFlag (key value : string).         (* self.helper_flags[key] = value *)

(** Which events change the installation target (its file tree or the
    boot sectors of its disk). *)
Definition mutates_target (ev : Event) : bool :=
  match ev with
  | ELog _ _ => false
  | ESetFlag _ _ => false
  | EStrap _ | EMkdir _ | ECopy _ _ | ESysCommand _ | EWriteText _ _ => true
  end.

Definition is_write (ev : Event) : bool :=
  match ev with EWriteText _ _ => true | _ => false end.

Definition is_syscommand (ev : Event) : bool :=
  match ev with ESysCommand _ => true | _ => false end.

Definition is_setflag (ev : Event) : bool :=
  match ev with ESetFlag _ _ => true | _ => false end.

(** The mutable state: [self.helper_flags], the text files written so far
    (keyed by [str(path)]), and the trace of events performed. *)
Record State := mkState {
  helper_flags : gmap string string;
  files : gmap string string;
  trace : list Event
}.

Definition init_state : State := mkState ∅ ∅ [].

(** The outside world, as far as the method consults it. *)
Record Env := {
  (* SysInfo.has_uefi() *)
  has_uefi : bool;
  (* the exception an external call raises, if it fails *)
  fault : Event -> option exn;
  (* boot_partition.safe_dev_path *)
  safe_dev_path : PartitionModification -> result Path;
  (* disk.device_handler.get_parent_device_path *)
  get_parent_device_path : Path -> result Path;
  (* disk.device_handler.get_unique_path_for_device *)
  get_unique_path_for_device : Path -> result (option Path);
  (* self._get_kernel_params *)
  _get_kernel_params : RootSpec -> result (list string);
  (* the text of the ValueError of Path.relative_to *)
  relative_to_msg : Path -> string
}.

Definition apply_event (ev : Event) (st : State) : State :=
  match ev with
  | EWriteText p content =>
      mkState (helper_flags st) (<[PathOps.str p := content]> (files st))
              (trace st ++ [ev])
  | ESetFlag k v =>
      mkState (<[k := v]> (helper_flags st)) (files st) (trace st ++ [ev])
  | _ => mkState (helper_flags st) (files st) (trace st ++ [ev])
  end.

(** A state-and-exception monad: an exception keeps the state reached. *)
Definition M (A : Type) : Type := State -> result A * State.

Definition ret {A} (a : A) : M A := fun st => (Ok a, st).

Definition bind {A B} (m : M A) (k : A -> M B) : M B :=
  fun st => match m st with
            | (Ok a, st') => k a st'
            | (Raise e, st') => (Raise e, st')
            end.

Definition raise {A} (e : exn) : M A := fun st => (Raise e, st).

(** [try: m  except Exception as err: h err] *)
Definition try_except {A} (m : M A) (h : exn -> M A) : M A :=
  fun st => match m st with
            | (Ok a, st') => (Ok a, st')
            | (Raise e, st') => h e st'
            end.

Definition lift {A} (r : result A) : M A := fun st => (r, st).

(** A call that cannot fail. *)
Definition perform (ev : Event) : M unit :=
  fun st => (Ok tt, apply_event ev st).

Notation "'do' x <- m ; k" := (bind m (fun x => k))
  (at level 10, x name, m at level 100, k at level 200).
Notation "'run' m ; k" := (bind m (fun _ => k))
  (at level 10, m at level 100, k at level 200).

(** [for x in xs: body x] *)
Fixpoint for_each {A} (xs : list A) (body : A -> M unit) : M unit :=
  match xs with
  | [] => ret tt
  | x :: rest => run body x; for_each rest body
  end.

(** ** The boot-menu text

    The two nested loops of the method, accumulating into
    [config_contents] with [+=]. *)

Definition variants : list string := [""; "fallback"].

Definition entry (kernel variant kernel_params : string) : list string :=
  [ "PROTOCOL=linux";
    "KERNEL_PATH=boot:///vmlinuz-" +:+ kernel;
    "MODULE_PATH=boot:///initramfs-" +:+ kernel +:+ variant +:+ ".img";
    "CMDLINE=" +:+ kernel_params ].

Definition variant_body (kernel kernel_params : string)
    (config_contents variant : string) : string :=
  let config_contents :=
    config_contents +:+ (Str.nl +:+ ":Polaris Linux " +:+ variant +:+ Str.nl) in
  config_contents +:+
    (Str.join Str.nl
       (map (fun it => "    " +:+ it) (entry kernel variant kernel_params))
     +:+ Str.nl).

Definition kernel_body (kernel_params : string)
    (config_contents kernel : string) : string :=
  fold_left (variant_body kernel kernel_params) variants config_contents.

Definition render_config (kernels : list string) (kernel_params : string)
    : string :=
  fold_left (kernel_body kernel_params) kernels ("TIMEOUT=5" +:+ Str.nl).

(** [kernel_params_orig.append("quiet"); .append("splash");
     ' '.join(kernel_params_orig)] *)
Definition kernel_cmdline (kernel_params_orig : list string) : string :=
  Str.join " " ((kernel_params_orig ++ ["quiet"]) ++ ["splash"]).

(** ** The upgrade hook text *)

Definition uefi_hook_command (mp : Path) : string :=
  ("/usr/bin/cp /usr/share/limine/BOOTIA32.EFI " +:+ PathOps.str mp
     +:+ "/EFI/BOOT/")
  +:+ (" && /usr/bin/cp /usr/share/limine/BOOTX64.EFI " +:+ PathOps.str mp
     +:+ "/EFI/BOOT/").

Definition bios_hook_command (parent_dev_path : Path) : string :=
  ("/usr/bin/limine bios-install " +:+ PathOps.str parent_dev_path)
  +:+ " && /usr/bin/cp /usr/share/limine/limine-bios.sys /boot/".

Definition hook_contents (hook_command : string) : string :=
  "[Trigger]" +:+ Str.nl +:+
  "Operation = Install" +:+ Str.nl +:+
  "Operation = Upgrade" +:+ Str.nl +:+
  "Type = Package" +:+ Str.nl +:+
  "Target = limine" +:+ Str.nl +:+
  Str.nl +:+
  "[Action]" +:+ Str.nl +:+
  "Description = Deploying Limine after upgrade..." +:+ Str.nl +:+
  "When = PostTransaction" +:+ Str.nl +:+
  "Exec = /bin/sh -c " +:+ Str.dquote +:+ hook_command +:+ Str.dquote
    +:+ Str.nl.

(** ** The method *)

Section Method.

Context (env : Env).

(** An external call: it raises what the world says, or happens. *)
Definition call (ev : Event) : M unit :=
  fun st => match fault env ev with
            | Some e => (Raise e, st)
            | None => (Ok tt, apply_event ev st)
            end.

Definition limine_path (self : Installer) : Path :=
  target self // "usr" // "share" // "limine".

Definition efi_dir_of (self : Installer) (rel : Path) : Path :=
  PathOps.join (target self) rel // "EFI" // "BOOT".

Definition bios_install_cmd (self : Installer) (parent_dev_path : Path)
    : string :=
  "/usr/bin/arch-chroot " +:+ PathOps.str (target self)
    +:+ " limine bios-install " +:+ PathOps.str parent_dev_path.

(** [exceptions.DiskError(f'Failed to install Limine in
    {self.target}{efi_partition.mountpoint}: {err}')] *)
Definition uefi_disk_error (self : Installer) (mp : Path) (err : exn) : exn :=
  DiskError ("Failed to install Limine in "
               +:+ PathOps.str (target self) +:+ PathOps.str mp
               +:+ ": " +:+ exn_str err).

(** [exceptions.DiskError(f'Failed to install Limine on
    {parent_dev_path}: {err}')] *)
Definition bios_disk_error (parent_dev_path : Path) (err : exn) : exn :=
  DiskError ("Failed to install Limine on "
               +:+ PathOps.str parent_dev_path
               +:+ ": " +:+ exn_str err).

(** The [if SysInfo.has_uefi():] branch after the two guards. *)
Definition deploy_uefi (self : Installer) (efi : PartitionModification)
    (mp : Path) : M string :=
  run perform (ELog "info"
        ("Limine EFI partition: " +:+ PathOps.str_opt (dev_path efi)));
  run try_except
        (do rel <- lift (match PathOps.relative_to_root mp with
                         | Some r => Ok r
                         | None => Raise (ValueError (relative_to_msg env mp))
                         end);
         let efi_dir_path := efi_dir_of self rel in
         run call (EMkdir efi_dir_path);
         for_each ["BOOTIA32.EFI"; "BOOTX64.EFI"]
           (fun file => call (ECopy (limine_path self // file) efi_dir_path)))
        (fun err => raise (uefi_disk_error self mp err));
  ret (uefi_hook_command mp).

(** The [else:] branch. *)
Definition deploy_bios (self : Installer)
    (boot_partition : PartitionModification) : M string :=
  do dev <- lift (safe_dev_path env boot_partition);
  do parent_dev_path <- lift (get_parent_device_path env dev);
  do unique_path <- lift (get_unique_path_for_device env parent_dev_path);
  let parent_dev_path :=
    match unique_path with
    | Some u => u
    | None => parent_dev_path
    end in
  run try_except
        (run call (ECopy (limine_path self // "limine-bios.sys")
                         (target self // "boot"));
         call (ESysCommand (bios_install_cmd self parent_dev_path)))
        (fun err => raise (bios_disk_error parent_dev_path err));
  ret (bios_hook_command parent_dev_path).

Definition hooks_dir (self : Installer) : Path :=
  target self // "etc" // "pacman.d" // "hooks".

Definition hook_path (self : Installer) : Path :=
  hooks_dir self // "99-limine.hook".

Definition config_path (self : Installer) : Path :=
  target self // "boot" // "limine.cfg".

(** The firmware branch: the two guards, then the deployment. *)
Definition deploy (self : Installer)
    (boot_partition : PartitionModification)
    (efi_partition : option PartitionModification) : M string :=
  if has_uefi env then
    match efi_partition with
    | None => raise (ValueError "Could not detect efi partition")
    | Some efi =>
        match mountpoint efi with
        | None => raise (ValueError "EFI partition is not mounted")
        | Some mp => deploy_uefi self efi mp
        end
    end
  else deploy_bios self boot_partition.

Definition _add_limine_bootloader (self : Installer)
    (boot_partition : PartitionModification)
    (efi_partition : option PartitionModification)
    (root : RootSpec) : M unit :=
  run perform (ELog "debug" "Installing limine bootloader");
  run call (EStrap "limine");
  run perform (ELog "info" ("Limine boot partition: "
                              +:+ PathOps.str_opt (dev_path boot_partition)));
  do hook_command <- deploy self boot_partition efi_partition;
  run call (EMkdir (hooks_dir self));
  run call (EWriteText (hook_path self) (hook_contents hook_command));
  do kernel_params_orig <- lift (_get_kernel_params env root);
  let kernel_params := kernel_cmdline kernel_params_orig in
  let config_contents := render_config (kernels self) kernel_params in
  run call (EWriteText (config_path self) config_contents);
  perform (ESetFlag "bootloader" "limine").

End Method.

(** ** Reading the boot-menu text back

    The boot-menu file is line oriented: a stanza is a label line, which
    starts with a colon, and the indented lines that follow it. *)

Definition is_label (l : string) : bool := Str.starts_with ":" l.
Definition is_indented (l : string) : bool := Str.starts_with "    " l.
Definition is_timeout (l : string) : bool := Str.starts_with "TIMEOUT=" l.

Fixpoint take_indented (ls : list string) : list string :=
  match ls with
  | l :: rest => if is_indented l then l :: take_indented rest else []
  | [] => []
  end.

Fixpoint stanzas_of (ls : list string) : list (list string) :=
  match ls with
  | [] => []
  | l :: rest =>
      if is_label l then (l :: take_indented rest) :: stanzas_of rest
      else stanzas_of rest
  end.

(** The stanzas of a boot-menu text. *)
Definition stanzas (text : string) : list (list string) :=
  stanzas_of (Str.lines text).

Definition stanza_label (st : list string) : string :=
  match st with l :: _ => l | [] => "" end.

(** The value of the indented [KEY=value] line of a stanza. *)
Fixpoint stanza_value (key : string) (st : list string) : option string :=
  match st with
  | [] => None
  | l :: rest =>
      match Str.strip_prefix ("    " +:+ key +:+ "=") l with
      | Some v => Some v
      | None => stanza_value key rest
      end
  end.

(** The lines the method emits for one (kernel, variant) pair. *)
Definition stanza_lines (kernel variant kernel_params : string) : list string :=
  (":Polaris Linux " +:+ variant)
    :: map (fun it => "    " +:+ it) (entry kernel variant kernel_params).

(** The stanzas expected for a kernel list: kernels outermost, in order. *)
Definition expected_stanzas (kernels : list string) (kernel_params : string)
    : list (list string) :=
  flat_map (fun kernel =>
              map (fun variant => stanza_lines kernel variant kernel_params)
                  variants)
           kernels.

Definition no_newline (s : string) : bool := negb (Str.has_char "010"%char s).

(** Every line followed by a newline. *)
Definition unlines (ls : list string) : string :=
  fold_right (fun l r => l +:+ Str.nl +:+ r) "" ls.

(** The blank line and the five lines one loop iteration appends. *)
Definition block (kernel_params kernel variant : string) : list string :=
  "" :: stanza_lines kernel variant kernel_params.

Definition kernel_lines (kernel_params kernel : string) : list string :=
  flat_map (block kernel_params kernel) variants.

(** All lines of the boot-menu text, in order. *)
Definition config_lines (ks : list string) (kernel_params : string)
    : list string :=
  "TIMEOUT=5" :: flat_map (kernel_lines kernel_params) ks.

(** How often a line satisfying [f] occurs. *)
Fixpoint count_lines (f : string -> bool) (ls : list string) : nat :=
  match ls with
  | [] => 0
  | l :: rest => (if f l then 1 else 0) + count_lines f rest
  end.

(** ** What a successful deployment has done

    The events of the firmware branch and the command it hands to the
    hook, for reference in the statements below. *)

Definition uefi_events (self : Installer) (efi : PartitionModification)
    (mp : Path) : list Event :=
  let efi_dir_path := efi_dir_of self (mkPath false (parts mp)) in
  [ ELog "info" ("Limine EFI partition: " +:+ PathOps.str_opt (dev_path efi));
    EMkdir efi_dir_path;
    ECopy (limine_path self // "BOOTIA32.EFI") efi_dir_path;
    ECopy (limine_path self // "BOOTX64.EFI") efi_dir_path ].

Definition bios_events (self : Installer) (parent_dev_path : Path)
    : list Event :=
  [ ECopy (limine_path self // "limine-bios.sys") (target self // "boot");
    ESysCommand (bios_install_cmd self parent_dev_path) ].

(** The device the BIOS branch installs to: the unique path when the
    device handler knows one, the parent device otherwise. *)
Definition resolved_parent (env : Env) (boot_partition : PartitionModification)
    : result Path :=
  match safe_dev_path env boot_partition with
  | Raise e => Raise e
  | Ok dev =>
      match get_parent_device_path env dev with
      | Raise e => Raise e
      | Ok parent =>
          match get_unique_path_for_device env parent with
          | Raise e => Raise e
          | Ok (Some u) => Ok u
          | Ok None => Ok parent
          end
      end
  end.

Definition deployed (env : Env) (self : Installer)
    (boot_partition : PartitionModification)
    (efi_partition : option PartitionModification)
    (evs : list Event) (hook_command : string) : Prop :=
  if has_uefi env then
    exists efi mp,
      efi_partition = Some efi /\ mountpoint efi = Some mp
      /\ anchored mp = true
      /\ evs = uefi_events self efi mp
      /\ hook_command = uefi_hook_command mp
  else
    exists dev,
      resolved_parent env boot_partition = Ok dev
      /\ evs = bios_events self dev
      /\ hook_command = bios_hook_command dev.

(** The events of a complete run, given those of the firmware branch. *)
Definition run_events (self : Installer)
    (boot_partition : PartitionModification) (evs : list Event)
    (hook_command : string) (kernel_params_orig : list string) : list Event :=
  [ ELog "debug" "Installing limine bootloader";
    EStrap "limine";
    ELog "info" ("Limine boot partition: "
                   +:+ PathOps.str_opt (dev_path boot_partition)) ]
  ++ evs
  ++ [ EMkdir (hooks_dir self);
       EWriteText (hook_path self) (hook_contents hook_command);
       EWriteText (config_path self)
         (render_config (kernels self) (kernel_cmdline kernel_params_orig));
       ESetFlag "bootloader" "limine" ].

(** The state after a list of events has happened, in order. *)
Definition apply_events (evs : list Event) (st : State) : State :=
  fold_left (fun s ev => apply_event ev s) evs st.

Definition is_module_path (l : string) : bool :=
  Str.starts_with "    MODULE_PATH=" l.

(** A stanza without the lines satisfying [skip]. *)
Definition without (skip : string -> bool) (st : list string) : list string :=
  List.filter (fun l => negb (skip l)) st.

(** A list of lines whose first line, if any, is not indented. *)
Definition starts_plain (ls : list string) : Prop :=
  match ls with
  | [] => True
  | l :: _ => is_indented l = false
  end.

(** ** Where a failure comes from *)

(** [cause] is what one of the calls [evs] raises. *)
Definition raised_by (env : Env) (evs : list Event) (cause : exn) : Prop :=
  exists ev, In ev evs /\ fault env ev = Some cause.

(** What can go wrong inside the [try] of the UEFI branch. *)
Definition uefi_cause (env : Env) (self : Installer)
    (efi : PartitionModification) (mp : Path) (cause : exn) : Prop :=
  (anchored mp = false /\ cause = ValueError (relative_to_msg env mp))
  \/ (anchored mp = true /\ raised_by env (uefi_events self efi mp) cause).

(** The events before the firmware branch. *)
Definition prologue (boot_partition : PartitionModification) : list Event :=
  [ ELog "debug" "Installing limine bootloader";
    EStrap "limine";
    ELog "info" ("Limine boot partition: "
                   +:+ PathOps.str_opt (dev_path boot_partition)) ].

(** The ways a run can fail: the exception raised, and the events that
    had happened by then. *)
Inductive failure (env : Env) (self : Installer)
    (bp : PartitionModification) (efi_partition : option PartitionModification)
    (root : RootSpec) : exn -> list Event -> Prop :=
| FStrap e :
    fault env (EStrap "limine") = Some e ->
    failure env self bp efi_partition root e
      [ELog "debug" "Installing limine bootloader"]
| FNoEfi :
    has_uefi env = true -> efi_partition = None ->
    failure env self bp efi_partition root
      (ValueError "Could not detect efi partition") (prologue bp)
| FNotMounted efi :
    has_uefi env = true -> efi_partition = Some efi ->
    mountpoint efi = None ->
    failure env self bp efi_partition root
      (ValueError "EFI partition is not mounted") (prologue bp)
| FUefiDeploy efi mp cause n :
    has_uefi env = true -> efi_partition = Some efi ->
    mountpoint efi = Some mp ->
    uefi_cause env self efi mp cause ->
    1 <= n <= 3 ->
    failure env self bp efi_partition root
      (uefi_disk_error self mp cause)
      (prologue bp ++ firstn n (uefi_events self efi mp))
| FBiosResolve e :
    has_uefi env = false ->
    resolved_parent env bp = Raise e ->
    failure env self bp efi_partition root e (prologue bp)
| FBiosDeploy dev cause n :
    has_uefi env = false ->
    resolved_parent env bp = Ok dev ->
    raised_by env (bios_events self dev) cause ->
    n <= 1 ->
    failure env self bp efi_partition root
      (bios_disk_error dev cause)
      (prologue bp ++ firstn n (bios_events self dev))
| FHooksDir evs cmd e :
    deployed env self bp efi_partition evs cmd ->
    fault env (EMkdir (hooks_dir self)) = Some e ->
    failure env self bp efi_partition root e (prologue bp ++ evs)
| FHookWrite evs cmd e :
    deployed env self bp efi_partition evs cmd ->
    fault env (EWriteText (hook_path self) (hook_contents cmd)) = Some e ->
    failure env self bp efi_partition root e
      (prologue bp ++ evs ++ [EMkdir (hooks_dir self)])
| FKernelParams evs cmd e :
    deployed env self bp efi_partition evs cmd ->
    _get_kernel_params env root = Raise e ->
    failure env self bp efi_partition root e
      (prologue bp ++ evs
         ++ [EMkdir (hooks_dir self);
             EWriteText (hook_path self) (hook_contents cmd)])
| FConfigWrite evs cmd params e :
    deployed env self bp efi_partition evs cmd ->
    _get_kernel_params env root = Ok params ->
    fault env (EWriteText (config_path self)
                 (render_config (kernels self) (kernel_cmdline params)))
      = Some e ->
    failure env self bp efi_partition root e
      (prologue bp ++ evs
         ++ [EMkdir (hooks_dir self);
             EWriteText (hook_path self) (hook_contents cmd)]).

(** ** Replaying the upgrade hook

    pacman runs the hook's [Exec] line, [/bin/sh -c "<command>"], in the
    installed system, whose root directory is the target.  The commands the
    method builds use no quoting of their own: the shell splits them into
    words at blanks and runs the simple commands between [&&] from left to
    right.  [cp] and [limine bios-install] are the only programs. *)

(** What a deployment step leaves behind, in paths of the installing host. *)
Inductive Placement : Type :=
| Copied (src dst : Path)                    (* [src] copied into directory [dst] *)
| BiosInstalled (root : Path) (device : string). (* stages 1 and 2 written to [device] *)

Module Sh.

(** Field splitting at blanks. *)
Definition words (cmd : string) : list string :=
  List.filter (fun w => negb (Str.is_empty w)) (Str.split_on " " cmd).

(** The simple commands of an [&&] list. *)
Fixpoint and_list (ws : list string) : list (list string) :=
  match ws with
  | [] => [[]]
  | w :: rest =>
      if String.eqb w "&&" then [] :: and_list rest
      else match and_list rest with
           | [] => [[w]]
           | c :: cs => (w :: c) :: cs
           end
  end.

(** [PurePosixPath(s)]: empty components and single dots vanish. *)
Definition parse_path (s : string) : Path :=
  mkPath (Str.starts_with "/" s)
         (List.filter PathOps.component_ok (Str.split_on "/" s)).

(** The components a path walks through below a root directory: a [..]
    component steps back to the parent, and at the root it stays at the
    root. *)
Fixpoint walk (acc xs : list string) : list string :=
  match xs with
  | [] => acc
  | x :: rest =>
      if String.eqb x ".." then walk (removelast acc) rest
      else walk (acc ++ [x]) rest
  end.

(** The path [p] of a process whose root directory is [root] (and whose
    working directory is that root), as a path of the host. *)
Definition in_root (root p : Path) : Path :=
  mkPath (anchored root) (parts root ++ walk [] (parts p)).

(** One simple command, run with root directory [root]:
    [cp source... directory] or [limine bios-install device]. *)
Definition run_simple (root : Path) (argv : list string)
    : option (list Placement) :=
  match argv with
  | [] => None
  | prog :: args =>
      if String.eqb prog "/usr/bin/cp" then
        match rev args with
        | dst :: src :: more =>
            Some (map (fun s => Copied (in_root root (parse_path s))
                                       (in_root root (parse_path dst)))
                      (rev (src :: more)))
        | _ => None
        end
      else if String.eqb prog "/usr/bin/limine" || String.eqb prog "limine"
      then
        match args with
        | [sub; device] =>
            if String.eqb sub "bios-install"
            then Some [BiosInstalled root device]
            else None
        | _ => None
        end
      else None
  end.

(** A command of the installing host: [arch-chroot root command...]. *)
Definition run_host (argv : list string) : option (list Placement) :=
  match argv with
  | prog :: root :: inner =>
      if String.eqb prog "/usr/bin/arch-chroot"
      then run_simple (parse_path root) inner
      else None
  | _ => None
  end.

(** All simple commands of an [&&] list, or [None] if one is not
    understood. *)
Fixpoint run_all (root : Path) (cmds : list (list string))
    : option (list Placement) :=
  match cmds with
  | [] => Some []
  | c :: rest =>
      match run_simple root c, run_all root rest with
      | Some ps, Some qs => Some (ps ++ qs)
      | _, _ => None
      end
  end.

(** [sh -c cmd] in the system installed at [root]. *)
Definition replay (root : Path) (cmd : string) : option (list Placement) :=
  run_all root (and_list (words cmd)).

(** The string without its last character, which must be a double quote. *)
Fixpoint drop_last_quote (s : string) : option string :=
  match s with
  | EmptyString => None
  | String c s' =>
      match s' with
      | EmptyString => if Ascii.eqb c "034"%char then Some EmptyString
                       else None
      | String _ _ =>
          match drop_last_quote s' with
          | Some r => Some (String c r)
          | None => None
          end
      end
  end.

Definition exec_of_line (l : string) : option string :=
  match Str.strip_prefix ("Exec = /bin/sh -c " +:+ Str.dquote) l with
  | Some r => drop_last_quote r
  | None => None
  end.

Fixpoint first_exec (ls : list string) : option string :=
  match ls with
  | [] => None
  | l :: rest =>
      match exec_of_line l with
      | Some c => Some c
      | None => first_exec rest
      end
  end.

(** The command of the [Exec] line of a hook file. *)
Definition exec_command (hook_text : string) : option string :=
  first_exec (Str.lines hook_text).

(** Characters the shell or the hook file give a meaning of their own. *)
Definition special_chars : list ascii :=
  [ " "; "009"; "010"; "034"; "'"; "\"; "$"; "`"; "&"; ";"; "|"; "<"; ">";
    "("; ")"; "*"; "?"; "["; "]"; "{"; "}"; "~"; "#"; "!" ]%char.

Fixpoint plain (s : string) : bool :=
  match s with
  | EmptyString => true
  | String c s' =>
      negb (existsb (Ascii.eqb c) special_chars) && plain s'
  end.

Definition not_parent (s : string) : bool := negb (String.eqb s "..").

(** A parsed path all of whose components are plain words, none of them
    the parent directory [..]. *)
Definition plain_path (p : Path) : bool :=
  PathOps.wf p
  && (forallb plain (parts p) && forallb not_parent (parts p)).

(** What a deployment event placed. *)
Definition placement_of (ev : Event) : list Placement :=
  match ev with
  | ECopy src dst => [Copied src dst]
  | ESysCommand cmd =>
      match run_host (words cmd) with
      | Some ps => ps
      | None => []
      end
  | _ => []
  end.

Definition placements (evs : list Event) : list Placement :=
  flat_map placement_of evs.

(** The paths the hook command prints are plain. *)
Definition plain_inputs (env : Env) (self : Installer)
    (bp : PartitionModification)
    (efi_partition : option PartitionModification) : bool :=
  if has_uefi env then
    match efi_partition with
    | Some efi =>
        match mountpoint efi with
        | Some mp => plain_path mp
        | None => true
        end
    | None => true
    end
  else
    plain_path (target self)
    && match resolved_parent env bp with
       | Ok device => plain_path device
       | Raise _ => true
       end.

End Sh.

(** ** A concrete installation

    The installer as [perform_installation] builds it (target
    [/mnt/archinstall], kernels [['linux-zen']]), a disk with the EFI system
    partition mounted on [/boot], and a world in which every call works. *)

Module Sample.

Definition mnt : Path := mkPath true ["mnt"; "archinstall"].

Definition installer : Installer :=
  {| target := mnt; kernels := ["linux-zen"] |}.

Definition installer2 : Installer :=
  {| target := mnt; kernels := ["linux-zen"; "linux-lts"] |}.

Definition boot : PartitionModification :=
  {| dev_path := Some (mkPath true ["dev"; "sda1"]);
     mountpoint := Some (mkPath true ["boot"]) |}.

Definition unmounted : PartitionModification :=
  {| dev_path := Some (mkPath true ["dev"; "sda1"]); mountpoint := None |}.

Definition root : RootSpec :=
  RootPartition {| dev_path := Some (mkPath true ["dev"; "sda2"]);
                   mountpoint := Some (mkPath true []) |}.

Definition world (uefi : bool) (fault : Event -> option exn) : Env :=
  {| has_uefi := uefi;
     fault := fault;
     safe_dev_path := fun p =>
       match dev_path p with
       | Some d => Ok d
       | None => Raise (ValueError "Device path was not found")
       end;
     get_parent_device_path := fun _ => Ok (mkPath true ["dev"; "sda"]);
     get_unique_path_for_device := fun _ =>
       Ok (Some (mkPath true ["dev"; "disk"; "by-id"; "ata-DISK0"]));
     _get_kernel_params := fun _ => Ok ["root=/dev/sda2"; "rw"];
     relative_to_msg := fun p =>
       "'" +:+ PathOps.str p +:+ "' is not in the subpath of '/'" |}.

Definition no_fault : Event -> option exn := fun _ => None.

(** The disk is full: every copy fails. *)
Definition copy_fails : Event -> option exn :=
  fun ev => match ev with
            | ECopy _ _ =>
                Some (ExternalError "OSError"
                        "[Errno 28] No space left on device")
            | _ => None
            end.

Definition params : list string := ["root=/dev/sda2"; "rw"].

Definition disk_full : exn :=
  DiskError ("Failed to install Limine in /mnt/archinstall/boot: "
               +:+ "[Errno 28] No space left on device").

(** An EFI system partition whose mount point has a blank in its name. *)
Definition blank_esp : PartitionModification :=
  {| dev_path := Some (mkPath true ["dev"; "sda1"]);
     mountpoint := Some (mkPath true ["my efi"]) |}.

(** A UEFI installation, a BIOS installation, and one with two kernels. *)
Definition uefi_run : result unit * State :=
  _add_limine_bootloader (world true no_fault) installer boot (Some boot)
    root init_state.

Definition bios_run : result unit * State :=
  _add_limine_bootloader (world false no_fault) installer boot None
    root init_state.

(** A UEFI installation whose EFI mount point has a blank in its name. *)
Definition blank_run : result unit * State :=
  _add_limine_bootloader (world true no_fault) installer boot
    (Some blank_esp) root init_state.

Definition uefi_run2 : result unit * State :=
  _add_limine_bootloader (world true no_fault) installer2 boot (Some boot)
    root init_state.

End Sample.

(** The text of the boot-menu file in a state, if it was written. *)
Definition config_file (self : Installer) (st : State) : option string :=
  files st !! PathOps.str (config_path self).

(** The text of the upgrade hook in a state, if it was written. *)
Definition hook_file (self : Installer) (st : State) : option string :=
  files st !! PathOps.str (hook_path self).

(** The partition information a firmware mode needs is missing: in UEFI
    mode the EFI partition or its mount point, in BIOS mode the device path
    of the boot partition. *)
Definition missing_partition_info (env : Env) (bp : PartitionModification)
    (efi_partition : option PartitionModification) : Prop :=
  if has_uefi env then
    efi_partition = None
    \/ exists efi, efi_partition = Some efi /\ mountpoint efi = None
  else
    exists e, safe_dev_path env bp = Raise e.

(** ** The kinds of exception a run raises *)

(** The ValueError of one of the two EFI guards. *)
Definition guard_error (env : Env)
    (efi_partition : option PartitionModification) (e : exn) : Prop :=
  has_uefi env = true
  /\ ((efi_partition = None
       /\ e = ValueError "Could not detect efi partition")
      \/ (exists efi, efi_partition = Some efi /\ mountpoint efi = None
                      /\ e = ValueError "EFI partition is not mounted")).

(** The DiskError that wraps a failure inside a deployment block: its text
    names the target and mount point, or the device, and ends with the text
    of the cause. *)
Definition deployment_error (env : Env) (self : Installer)
    (bp : PartitionModification)
    (efi_partition : option PartitionModification) (e : exn) : Prop :=
  (exists efi mp cause,
     has_uefi env = true
     /\ efi_partition = Some efi /\ mountpoint efi = Some mp
     /\ uefi_cause env self efi mp cause
     /\ e = DiskError ("Failed to install Limine in "
                         +:+ PathOps.str (target self) +:+ PathOps.str mp
                         +:+ ": " +:+ exn_str cause))
  \/ (exists device cause,
        has_uefi env = false
        /\ resolved_parent env bp = Ok device
        /\ raised_by env (bios_events self device) cause
        /\ e = DiskError ("Failed to install Limine on "
                            +:+ PathOps.str device
                            +:+ ": " +:+ exn_str cause)).

(** The exception of a collaborator outside the deployment blocks, as the
    collaborator raised it. *)
Definition collaborator_error (env : Env) (self : Installer)
    (bp : PartitionModification) (root : RootSpec) (e : exn) : Prop :=
  fault env (EStrap "limine") = Some e
  \/ (has_uefi env = false /\ resolved_parent env bp = Raise e)
  \/ fault env (EMkdir (hooks_dir self)) = Some e
  \/ (exists text, fault env (EWriteText (hook_path self) text) = Some e)
  \/ _get_kernel_params env root = Raise e
  \/ (exists text, fault env (EWriteText (config_path self) text) = Some e).

(** ** What a list of events leaves in the two maps *)

(** The [write_text] calls of a trace, as (file name, text) pairs. *)
Definition writes (evs : list Event) : list (string * string) :=
  flat_map (fun ev => match ev with
                      | EWriteText p content => [(PathOps.str p, content)]
                      | _ => []
                      end) evs.

(** The assignments to [helper_flags] of a trace. *)
Definition flag_sets (evs : list Event) : list (string * string) :=
  flat_map (fun ev => match ev with
                      | ESetFlag k v => [(k, v)]
                      | _ => []
                      end) evs.

(** [for k, v in kvs: m[k] = v] *)
Definition assign_all (kvs : list (string * string)) (m : gmap string string)
    : gmap string string :=
  fold_left (fun acc kv => <[fst kv := snd kv]> acc) kvs m.

(** The value the last assignment to [k] gives it, if there is one. *)
Fixpoint last_assigned (k : string) (kvs : list (string * string))
    : option string :=
  match kvs with
  | [] => None
  | kv :: rest =>
      match last_assigned k rest with
      | Some v => Some v
      | None => if String.eqb (fst kv) k then Some (snd kv) else None
      end
  end.

(** The directory the UEFI branch copies the stubs into. *)
Definition efi_boot_dir (self : Installer) (mp : Path) : Path :=
  mkPath (anchored (target self))
         (parts (target self) ++ parts mp ++ ["EFI"; "BOOT"]).

(** The calls the method makes on an installation, in either firmware
    mode: the argument patterns of the calls in its body. *)
Definition expected_call (env : Env) (self : Installer)
    (bp : PartitionModification)
    (efi_partition : option PartitionModification) (ev : Event) : Prop :=
  match ev with
  | ELog _ _ => True
  | EStrap pkg => pkg = "limine"
  | EMkdir p =>
      p = hooks_dir self
      \/ (has_uefi env = true
          /\ exists efi mp,
               efi_partition = Some efi /\ mountpoint efi = Some mp
               /\ p = efi_boot_dir self mp)
  | ECopy src dst =>
      (has_uefi env = true
       /\ (src = limine_path self // "BOOTIA32.EFI"
           \/ src = limine_path self // "BOOTX64.EFI")
       /\ exists efi mp,
            efi_partition = Some efi /\ mountpoint efi = Some mp
            /\ dst = efi_boot_dir self mp)
      \/ (has_uefi env = false
          /\ src = limine_path self // "limine-bios.sys"
          /\ dst = target self // "boot")
  | ESysCommand cmd =>
      has_uefi env = false
      /\ exists device,
           resolved_parent env bp = Ok device
           /\ cmd = bios_install_cmd self device
  | EWriteText p _ => p = hook_path self \/ p = config_path self
  | ESetFlag key value => key = "bootloader" /\ value = "limine"
  end.

(** The label and the three fixed fields of a stanza. *)
Definition stanza_fields (st : list string)
    : string * option string * option string * option string :=
  (stanza_label st, stanza_value "PROTOCOL" st,
   stanza_value "KERNEL_PATH" st, stanza_value "MODULE_PATH" st).

(** The fields of the two stanzas of one kernel. *)
Definition kernel_fields (kernel : string)
    : list (string * option string * option string * option string) :=
  [ (":Polaris Linux ", Some "linux",
     Some ("boot:///vmlinuz-" +:+ kernel),
     Some ("boot:///initramfs-" +:+ kernel +:+ ".img"));
    (":Polaris Linux fallback", Some "linux",
     Some ("boot:///vmlinuz-" +:+ kernel),
     Some ("boot:///initramfs-" +:+ kernel +:+ "fallback.img")) ].

(** ** The package step of [perform_installation]

    The module-level package lists, and the [if]/[elif] chain on the GPU
    vendor that is followed by the request for the common packages. *)

Definition packages : list string :=
  [ "wget"; "nano"; "openssh"; "wireless_tools"; "wpa_supplicant";
    "smartmontools"; "git"; "networkmanager"; "packagekit"; "pacman-contrib";
    "firewalld"; "python"; "python-pip"; "vim"; "linux-firmware-qlogic";
    "linux-firmware-bnx2x"; "linux-firmware-liquidio";
    "linux-firmware-mellanox"; "linux-firmware-nfp"; "mimalloc"; "nasm";
    "xdg-utils"; "htop"; "pipewire"; "pipewire-alsa"; "pipewire-jack";
    "pipewire-pulse"; "gst-plugin-pipewire"; "libpulse"; "wireplumber";
    "flatpak"; "papirus-icon-theme"; "gnu-free-fonts"; "noto-fonts"; "vlc";
    "thunderbird"; "nerd-fonts"; "firefox"; "touchegg"; "imagemagick";
    "bluez"; "gparted"; "wayland-protocols"; "icoutils"; "dosfstools";
    "jfsutils"; "f2fs-tools"; "btrfs-progs"; "exfatprogs"; "ntfs-3g";
    "reiserfsprogs"; "udftools"; "xfsprogs"; "nilfs-utils"; "polkit"; "gpart";
    "mtools"; "dhcpcd"; "materia-gtk-theme"; "budgie"; "nemo"; "feh";
    "network-manager-applet"; "mousepad"; "lzop"; "xorg"; "earlyoom"; "go";
    "util-linux"; "cairo"; "fribidi"; "gtk4"; "hicolor-icon-theme"; "icu";
    "json-glib"; "libadwaita"; "libportal"; "libportal-gtk4"; "pango";
    "vte-common"; "meson"; "lha"; "tpm2-tools"; "plymouth"; "libnm";
    "fastfetch"; "wireless-regdb"; "galculator"; "xaw3d"; "libxp";
    "gnome-console"; "file-roller"; "ed"; "qt6-5compat"; "qt5-declarative";
    "sddm"; "gspell" ].

(** In the source ['mesa'] and ['libva-mesa-driver'] stand next to each
    other without a comma: Python joins adjacent literals into one. *)
Definition amd_drivers : list string :=
  [ "vulkan-radeon"; "xf86-video-ati"; "mesa" +:+ "libva-mesa-driver";
    "xf86-video-amdgpu" ].

Definition nvidia_drivers : list string :=
  [ "dkms"; "nvidia-dkms"; "nvidia-utils" ].

Definition nvidia_newer_drivers : list string :=
  [ "nvidia-open-dkms"; "nvidia-open"; "dkms"; "nvidia-utils" ].

Definition intel_drivers : list string :=
  [ "mesa"; "intel-media-driver"; "libva-intel-driver"; "vulkan-intel" ].

Definition vmware_drivers : list string :=
  [ "xf86-video-vmware"; "mesa"; "open-vm-tools" ].

(** The arguments of the calls to [installation.add_additional_packages]
    that [perform_installation] makes for a GPU vendor, in order, when none
    of the calls raises. *)
Definition gpu_packages (gpu_vendor : string) : list (list string) :=
  (if String.eqb gpu_vendor "amd" then [amd_drivers]
   else if String.eqb gpu_vendor "intel" then [intel_drivers]
   else if String.eqb gpu_vendor "nvidia_beforeturing" then [nvidia_drivers]
   else if String.eqb gpu_vendor "nvidia_turingplus"
        then [nvidia_newer_drivers]
   else if String.eqb gpu_vendor "vmware" then [vmware_drivers]
   else [])
  ++ [packages].

(** [name in l] *)
Definition mem (name : string) (l : list string) : bool :=
  existsb (String.eqb name) l.

(** One of the five vendor names the chain tests for. *)
Definition known_vendor (gpu_vendor : string) : bool :=
  mem gpu_vendor
    ["amd"; "intel"; "nvidia_beforeturing"; "nvidia_turingplus"; "vmware"].

Definition is_polaris_section (l : string) : bool := String.eqb l "[polaris]".

(** ** The two configuration files [perform_installation] extends

    [pacman.conf] and [sudoers] are read with [readlines], get entries
    appended to the list of lines and are written back with [writelines].
    The files are opened in text mode, so reading turns every [\r\n] and
    every lone [\r] into [\n]; on Linux writing changes nothing. *)

Module PyFile.

(** What text mode makes of the characters of a file. *)
Fixpoint universal_newlines (s : string) : string :=
  match s with
  | EmptyString => EmptyString
  | String c rest =>
      if Ascii.eqb c "013" then
        String "010"
          match rest with
          | String d rest' =>
              if Ascii.eqb d "010" then universal_newlines rest'
              else universal_newlines rest
          | EmptyString => EmptyString
          end
      else String c (universal_newlines rest)
  end.

(** [file.readlines()] on the text read: the lines with their newline. *)
Fixpoint readlines (s : string) : list string :=
  match s with
  | EmptyString => []
  | String c rest =>
      if Ascii.eqb c "010" then String c EmptyString :: readlines rest
      else match readlines rest with
           | [] => [String c EmptyString]
           | l :: ls => String c l :: ls
           end
  end.

(** [file.writelines(lines)]: the strings one after the other. *)
Definition writelines (lines : list string) : string :=
  String.concat EmptyString lines.

End PyFile.

Definition repo_entry : string :=
  Str.nl +:+ "[polaris]" +:+ Str.nl
    +:+ "Server = https://polaris-linux-distro.github.io/pacman-repo/repo"
    +:+ Str.nl +:+ "SigLevel = Optional TrustAll" +:+ Str.nl.

Definition repo_entry2 : string :=
  Str.nl +:+ "[chaotic-aur]" +:+ Str.nl
    +:+ "Include = /etc/pacman.d/chaotic-mirrorlist" +:+ Str.nl.

(** Both entries, without the newline the first one starts with. *)
Definition repo_entry_tail : string :=
  "[polaris]" +:+ Str.nl
    +:+ "Server = https://polaris-linux-distro.github.io/pacman-repo/repo"
    +:+ Str.nl +:+ "SigLevel = Optional TrustAll" +:+ Str.nl
    +:+ repo_entry2.

(** The new content of [/mnt/archinstall/etc/pacman.conf], from the old. *)
Definition pacman_conf_step (content : string) : string :=
  let lines := PyFile.readlines (PyFile.universal_newlines content) in
  let lines := lines ++ [repo_entry] in
  let lines := lines ++ [repo_entry2] in
  PyFile.writelines lines.

Definition wheel_entry : string := Str.nl +:+ "%wheel ALL=(ALL:ALL) ALL".

(** The new content of [/mnt/archinstall/etc/sudoers], from the old. *)
Definition sudoers_step (content : string) : string :=
  let lines := PyFile.readlines (PyFile.universal_newlines content) in
  let lines := lines ++ [wheel_entry] in
  PyFile.writelines lines.

(** A file without carriage returns, as Unix tools write them. *)
Definition unix_text (s : string) : bool := negb (Str.has_char "013" s).

(** ** Further worlds for the concrete installation *)

Module Cases.

(** A world in which the kernel parameters cannot be derived. *)
Definition no_params_world (uefi : bool) : Env :=
  {| has_uefi := uefi;
     fault := Sample.no_fault;
     safe_dev_path := safe_dev_path (Sample.world uefi Sample.no_fault);
     get_parent_device_path :=
       get_parent_device_path (Sample.world uefi Sample.no_fault);
     get_unique_path_for_device :=
       get_unique_path_for_device (Sample.world uefi Sample.no_fault);
     _get_kernel_params := fun _ =>
       Raise (ValueError "Could not determine the root partition");
     relative_to_msg := relative_to_msg (Sample.world uefi Sample.no_fault) |}.

(** An EFI system partition given with a relative mount point. *)
Definition relative_esp : PartitionModification :=
  {| dev_path := Some (mkPath true ["dev"; "sda1"]);
     mountpoint := Some (mkPath false ["boot"]) |}.

Definition io_error : exn :=
  ExternalError "OSError" "[Errno 5] Input/output error".

(** Only the copy of the first stub fails. *)
Definition first_stub_fails : Event -> option exn :=
  fun ev => match ev with
            | ECopy src _ =>
                if String.eqb (PathOps.str src)
                     "/mnt/archinstall/usr/share/limine/BOOTIA32.EFI"
                then Some io_error else None
            | _ => None
            end.

(** [limine bios-install] exits with an error. *)
Definition bios_install_fails : Event -> option exn :=
  fun ev => match ev with
            | ESysCommand _ =>
                Some (ExternalError "SysCallError" "exit code 1")
            | _ => None
            end.

(** An installer without kernels. *)
Definition no_kernels : Installer :=
  {| target := Sample.mnt; kernels := [] |}.

End Cases.

(** * Proofs *)

#[local] Arguments String.append !_ _ / : simpl nomatch.

(** ** Strings *)

Module StrFacts.
Import Str.

Lemma str_app_assoc (a b c : string) : (a +:+ b) +:+ c = a +:+ (b +:+ c).
Proof. induction a as [|x a IH]; simpl; [reflexivity | now rewrite IH]. Qed.

Lemma str_app_nil_r (a : string) : a +:+ "" = a.
Proof. induction a as [|x a IH]; simpl; [reflexivity | now rewrite IH]. Qed.

Lemma has_char_app c (a b : string) :
  has_char c (a +:+ b) = has_char c a || has_char c b.
Proof.
  induction a as [|x a IH]; simpl; [reflexivity |].
  destruct (Ascii.eqb x c); [reflexivity | exact IH].
Qed.

Lemma has_char_join c sep (xs : list string) :
  has_char c sep = false ->
  forallb (fun x => negb (has_char c x)) xs = true ->
  has_char c (join sep xs) = false.
Proof.
  intros Hsep. induction xs as [|x xs IH]; simpl; [reflexivity |].
  intros H. apply andb_prop in H as [Hx Hxs].
  apply negb_true_iff in Hx.
  destruct xs as [|y ys]; [exact Hx |].
  rewrite !has_char_app, Hx, Hsep. simpl. exact (IH Hxs).
Qed.

(** A field without the separator, followed by the separator, is split off. *)
Lemma split_on_field c (a b : string) :
  has_char c a = false ->
  split_on c (a +:+ String c b) = a :: split_on c b.
Proof.
  induction a as [|x a IH]; simpl; intros H.
  - now rewrite Ascii.eqb_refl.
  - destruct (Ascii.eqb x c); [discriminate |].
    now rewrite (IH H).
Qed.

Lemma split_on_single c (a : string) :
  has_char c a = false -> split_on c a = [a].
Proof.
  induction a as [|x a IH]; simpl; intros H; [reflexivity |].
  destruct (Ascii.eqb x c); [discriminate |].
  now rewrite (IH H).
Qed.

Lemma strip_prefix_app (p s : string) : strip_prefix p (p +:+ s) = Some s.
Proof.
  induction p as [|x p IH]; simpl; [reflexivity |].
  now rewrite Ascii.eqb_refl.
Qed.

End StrFacts.

(** ** The boot-menu text, line by line *)

Module ConfigFacts.
Import Str StrFacts.

Lemma unlines_app (a b : list string) :
  unlines (a ++ b) = unlines a +:+ unlines b.
Proof.
  induction a as [|x a IH]; simpl; [reflexivity |].
  now rewrite IH, !str_app_assoc.
Qed.

Lemma lines_unlines (ls : list string) :
  forallb no_newline ls = true -> lines (unlines ls) = ls ++ [""].
Proof.
  induction ls as [|l ls IH]; intros H; [reflexivity |].
  apply andb_prop in H as [Hl Hls].
  change (unlines (l :: ls)) with (l +:+ String "010"%char (unlines ls)).
  unfold lines in *.
  rewrite split_on_field by (now apply negb_true_iff in Hl).
  now rewrite (IH Hls).
Qed.

Lemma variant_body_unlines kernel kernel_params cfg variant :
  variant_body kernel kernel_params cfg variant
  = cfg +:+ unlines (block kernel_params kernel variant).
Proof.
  unfold variant_body, block, stanza_lines, entry, unlines, join.
  simpl. rewrite !str_app_assoc. simpl. rewrite ?str_app_assoc. reflexivity.
Qed.

Lemma kernel_body_unlines kernel_params cfg kernel :
  kernel_body kernel_params cfg kernel
  = cfg +:+ unlines (kernel_lines kernel_params kernel).
Proof.
  unfold kernel_body, kernel_lines, variants. simpl fold_left.
  rewrite !variant_body_unlines, str_app_assoc, <- unlines_app.
  reflexivity.
Qed.

Lemma fold_kernels_unlines kernel_params (ks : list string) cfg :
  fold_left (kernel_body kernel_params) ks cfg
  = cfg +:+ unlines (flat_map (kernel_lines kernel_params) ks).
Proof.
  revert cfg. induction ks as [|k ks IH]; intros cfg.
  - simpl. now rewrite str_app_nil_r.
  - change (fold_left (kernel_body kernel_params) (k :: ks) cfg)
      with (fold_left (kernel_body kernel_params) ks
              (kernel_body kernel_params cfg k)).
    change (flat_map (kernel_lines kernel_params) (k :: ks))
      with (kernel_lines kernel_params k
              ++ flat_map (kernel_lines kernel_params) ks).
    rewrite IH, kernel_body_unlines, unlines_app. now rewrite str_app_assoc.
Qed.

Lemma render_config_unlines ks kernel_params :
  render_config ks kernel_params = unlines (config_lines ks kernel_params).
Proof.
  unfold render_config. rewrite fold_kernels_unlines.
  reflexivity.
Qed.

(** *** Lines *)

Lemma no_newline_kernel_lines p k :
  no_newline k = true -> no_newline p = true ->
  forallb no_newline (kernel_lines p k) = true.
Proof.
  unfold no_newline. intros Hk Hp.
  apply negb_true_iff in Hk. apply negb_true_iff in Hp.
  unfold kernel_lines, variants, block, stanza_lines, entry.
  simpl. rewrite !has_char_app, Hk, Hp. reflexivity.
Qed.

Lemma no_newline_config_lines ks p :
  forallb no_newline ks = true -> no_newline p = true ->
  forallb no_newline (config_lines ks p) = true.
Proof.
  intros Hks Hp. unfold config_lines.
  change (forallb no_newline (flat_map (kernel_lines p) ks) = true).
  induction ks as [|k ks IH]; [reflexivity |].
  simpl in Hks. apply andb_prop in Hks as [Hk Hks].
  change (flat_map (kernel_lines p) (k :: ks))
    with (kernel_lines p k ++ flat_map (kernel_lines p) ks).
  rewrite forallb_app, (no_newline_kernel_lines p k Hk Hp). exact (IH Hks).
Qed.

Lemma lines_render_config ks p :
  forallb no_newline ks = true -> no_newline p = true ->
  lines (render_config ks p) = config_lines ks p ++ [""].
Proof.
  intros Hks Hp. rewrite render_config_unlines.
  apply lines_unlines, no_newline_config_lines; assumption.
Qed.

Lemma no_newline_cmdline (params : list string) :
  forallb no_newline params = true ->
  no_newline (kernel_cmdline params) = true.
Proof.
  intros H. unfold no_newline, kernel_cmdline.
  apply negb_true_iff, has_char_join; [reflexivity |].
  rewrite !forallb_app. simpl. rewrite !andb_true_r. exact H.
Qed.

Lemma kernel_cmdline_eq (params : list string) :
  kernel_cmdline params = join " " (params ++ ["quiet"; "splash"]).
Proof. unfold kernel_cmdline. now rewrite <- List.app_assoc. Qed.

(** *** Stanzas *)

Lemma indented_not_label l : is_indented l = true -> is_label l = false.
Proof.
  destruct l as [|a l]; [discriminate |].
  unfold is_indented, is_label.
  change (starts_with "    " (String a l))
    with (Ascii.eqb " " a && starts_with "   " l).
  change (starts_with ":" (String a l))
    with (Ascii.eqb ":" a && starts_with "" l).
  intros H. apply andb_prop in H as [Ha _].
  apply Ascii.eqb_eq in Ha. subst a. reflexivity.
Qed.

Lemma take_indented_body (body rest : list string) :
  forallb is_indented body = true -> starts_plain rest ->
  take_indented (body ++ rest) = body.
Proof.
  intros Hb Hrest. induction body as [|l body IH].
  - destruct rest as [|r rest]; [reflexivity |].
    change (take_indented ([] ++ r :: rest))
      with (if is_indented r then r :: take_indented rest else []).
    unfold starts_plain in Hrest. now rewrite Hrest.
  - change (forallb is_indented (l :: body))
      with (is_indented l && forallb is_indented body) in Hb.
    apply andb_prop in Hb as [Hl Hb].
    change (take_indented ((l :: body) ++ rest))
      with (if is_indented l then l :: take_indented (body ++ rest) else []).
    now rewrite Hl, (IH Hb).
Qed.

Lemma stanzas_of_skip_body (body rest : list string) :
  forallb is_indented body = true ->
  stanzas_of (body ++ rest) = stanzas_of rest.
Proof.
  intros Hb. induction body as [|l body IH]; [reflexivity |].
  change (forallb is_indented (l :: body))
    with (is_indented l && forallb is_indented body) in Hb.
  apply andb_prop in Hb as [Hl Hb].
  change (stanzas_of ((l :: body) ++ rest))
    with (if is_label l
          then (l :: take_indented (body ++ rest)) :: stanzas_of (body ++ rest)
          else stanzas_of (body ++ rest)).
  now rewrite (indented_not_label l Hl), (IH Hb).
Qed.

(** A blank line, a label and its indented lines make one stanza. *)
Lemma stanzas_of_shape (label : string) (body rest : list string) :
  is_label label = true ->
  forallb is_indented body = true ->
  starts_plain rest ->
  stanzas_of ("" :: label :: body ++ rest)
  = (label :: body) :: stanzas_of rest.
Proof.
  intros Hl Hb Hrest.
  change (stanzas_of ("" :: label :: body ++ rest))
    with (if is_label label
          then (label :: take_indented (body ++ rest))
                 :: stanzas_of (body ++ rest)
          else stanzas_of (body ++ rest)).
  now rewrite Hl, take_indented_body, stanzas_of_skip_body.
Qed.

Lemma stanzas_of_block p k v rest :
  starts_plain rest ->
  stanzas_of (block p k v ++ rest) = stanza_lines k v p :: stanzas_of rest.
Proof.
  intros Hrest. unfold block, stanza_lines.
  apply (stanzas_of_shape (":Polaris Linux " +:+ v)
           (map (fun it => "    " +:+ it) (entry k v p)) rest);
    [reflexivity | reflexivity | exact Hrest].
Qed.

Lemma kernel_tail_plain p ks :
  starts_plain (flat_map (kernel_lines p) ks ++ [""]).
Proof. destruct ks; reflexivity. Qed.

Lemma stanzas_of_kernels p ks :
  stanzas_of (flat_map (kernel_lines p) ks ++ [""]) = expected_stanzas ks p.
Proof.
  induction ks as [|k ks IH]; [reflexivity |].
  change (flat_map (kernel_lines p) (k :: ks))
    with ((block p k "" ++ block p k "fallback" ++ [])
            ++ flat_map (kernel_lines p) ks).
  rewrite List.app_nil_r, <- !List.app_assoc.
  rewrite stanzas_of_block by reflexivity.
  rewrite stanzas_of_block by apply kernel_tail_plain.
  rewrite IH. reflexivity.
Qed.

Lemma stanzas_render_config ks p :
  forallb no_newline ks = true -> no_newline p = true ->
  stanzas (render_config ks p) = expected_stanzas ks p.
Proof.
  intros Hks Hp. unfold stanzas. rewrite lines_render_config by assumption.
  unfold config_lines. simpl. apply stanzas_of_kernels.
Qed.

(** *** The fields of one stanza *)

Lemma label_stanza_lines k v p :
  stanza_label (stanza_lines k v p) = ":Polaris Linux " +:+ v.
Proof. reflexivity. Qed.

Lemma kernel_path_stanza_lines k v p :
  stanza_value "KERNEL_PATH" (stanza_lines k v p)
  = Some ("boot:///vmlinuz-" +:+ k).
Proof. reflexivity. Qed.

Lemma module_path_stanza_lines k v p :
  stanza_value "MODULE_PATH" (stanza_lines k v p)
  = Some ("boot:///initramfs-" +:+ k +:+ v +:+ ".img").
Proof. reflexivity. Qed.

Lemma cmdline_stanza_lines k v p :
  stanza_value "CMDLINE" (stanza_lines k v p) = Some p.
Proof. reflexivity. Qed.

(** *** The timeout line *)

Lemma count_lines_app f (a b : list string) :
  count_lines f (a ++ b) = count_lines f a + count_lines f b.
Proof. induction a as [|x a IH]; simpl; [reflexivity | rewrite IH; lia]. Qed.

Lemma no_timeout_in_kernels p ks :
  count_lines is_timeout (flat_map (kernel_lines p) ks) = 0.
Proof.
  induction ks as [|k ks IH]; [reflexivity |].
  change (flat_map (kernel_lines p) (k :: ks))
    with (kernel_lines p k ++ flat_map (kernel_lines p) ks).
  rewrite count_lines_app, IH. reflexivity.
Qed.

(** *** All stanzas at once *)

Lemma length_expected_stanzas ks p :
  length (expected_stanzas ks p) = 2 * length ks.
Proof.
  unfold expected_stanzas.
  induction ks as [|k ks IH]; [reflexivity |].
  simpl in *. rewrite IH. lia.
Qed.

Lemma labels_expected_stanzas ks p :
  map stanza_label (expected_stanzas ks p)
  = flat_map (fun _ : string =>
                [":Polaris Linux "; ":Polaris Linux fallback"]) ks.
Proof.
  unfold expected_stanzas.
  induction ks as [|k ks IH]; [reflexivity |].
  change (map stanza_label
            (stanza_lines k "" p :: stanza_lines k "fallback" p
               :: flat_map (fun kernel =>
                    map (fun variant => stanza_lines kernel variant p)
                        variants) ks)
          = ":Polaris Linux " :: ":Polaris Linux fallback"
              :: flat_map (fun _ : string =>
                   [":Polaris Linux "; ":Polaris Linux fallback"]) ks).
  rewrite !map_cons, IH. reflexivity.
Qed.

Lemma cmdline_expected_stanzas ks p :
  Forall (fun st => stanza_value "CMDLINE" st = Some p)
         (expected_stanzas ks p).
Proof.
  unfold expected_stanzas.
  induction ks as [|k ks IH]; [constructor |].
  change (Forall (fun st => stanza_value "CMDLINE" st = Some p)
            (stanza_lines k "" p :: stanza_lines k "fallback" p
               :: flat_map (fun kernel =>
                    map (fun variant => stanza_lines kernel variant p)
                        variants) ks)).
  constructor; [apply cmdline_stanza_lines |].
  constructor; [apply cmdline_stanza_lines | exact IH].
Qed.

(** In a list of [a; b] pairs, even positions hold [a] and odd ones [b]. *)
Lemma lookup_pairs {A} (a b : string) (ks : list A) (i : nat) :
  i < length ks ->
  flat_map (fun _ : A => [a; b]) ks !! (2 * i) = Some a
  /\ flat_map (fun _ : A => [a; b]) ks !! (2 * i + 1) = Some b.
Proof.
  revert i. induction ks as [|k ks IH]; intros i Hi; simpl in Hi; [lia |].
  destruct i as [|i]; [split; reflexivity |].
  replace (2 * S i) with (S (S (2 * i))) by lia.
  replace (S (S (2 * i)) + 1) with (S (S (2 * i + 1))) by lia.
  apply IH. lia.
Qed.

End ConfigFacts.

(** ** The monad *)

Module MonadFacts.

Lemma bind_ok {A B} (m : M A) (k : A -> M B) st b st' :
  bind m k st = (Ok b, st') ->
  exists a st1, m st = (Ok a, st1) /\ k a st1 = (Ok b, st').
Proof.
  unfold bind. destruct (m st) as [[a|e] st1]; intros H.
  - now exists a, st1.
  - discriminate.
Qed.

Lemma bind_raise {A B} (m : M A) (k : A -> M B) st e st' :
  bind m k st = (Raise e, st') ->
  m st = (Raise e, st')
  \/ exists a st1, m st = (Ok a, st1) /\ k a st1 = (Raise e, st').
Proof.
  unfold bind. destruct (m st) as [[a|e0] st1]; intros H.
  - right. now exists a, st1.
  - left. now inversion H.
Qed.

Lemma call_ok env ev st u st' :
  call env ev st = (Ok u, st') ->
  fault env ev = None /\ st' = apply_event ev st.
Proof.
  unfold call. destruct (fault env ev); intros H; [discriminate |].
  now inversion H.
Qed.

Lemma call_raise env ev st e st' :
  call env ev st = (Raise e, st') -> fault env ev = Some e /\ st' = st.
Proof.
  unfold call. destruct (fault env ev); intros H; [| discriminate].
  now inversion H.
Qed.

Lemma perform_ok ev st r st' :
  perform ev st = (r, st') -> r = Ok tt /\ st' = apply_event ev st.
Proof. unfold perform. intros H. now inversion H. Qed.

Lemma lift_inv {A} (r : result A) st r' st' :
  lift r st = (r', st') -> r' = r /\ st' = st.
Proof. unfold lift. intros H. now inversion H. Qed.

Lemma ret_inv {A} (a : A) st r st' :
  ret a st = (r, st') -> r = Ok a /\ st' = st.
Proof. unfold ret. intros H. now inversion H. Qed.

(** A handler that always raises lets only the body's results through. *)
Lemma try_reraise_ok {A} (m : M A) (f : exn -> exn) st a st' :
  try_except m (fun err => raise (f err)) st = (Ok a, st') ->
  m st = (Ok a, st').
Proof.
  unfold try_except, raise. destruct (m st) as [[x|e] st1]; intros H.
  - exact H.
  - discriminate.
Qed.

Lemma try_reraise_raise {A} (m : M A) (f : exn -> exn) st e st' :
  try_except m (fun err => raise (f err)) st = (Raise e, st') ->
  exists cause, m st = (Raise cause, st') /\ e = f cause.
Proof.
  unfold try_except, raise. destruct (m st) as [[x|c] st1]; intros H.
  - discriminate.
  - inversion H; subst. now exists c.
Qed.

End MonadFacts.

(** Inversion of a run, one step at a time. *)
Ltac step_ok H :=
  match type of H with
  | bind _ _ _ = (Ok _, _) =>
      let a := fresh "a" in let s := fresh "st" in
      let H1 := fresh "Hm" in let H2 := fresh "Hk" in
      apply MonadFacts.bind_ok in H as (a & s & H1 & H2);
      step_ok H1; step_ok H2
  | call _ _ _ = (Ok _, _) =>
      let F := fresh "Hfault" in
      apply MonadFacts.call_ok in H as [F ->]
  | perform _ _ = (_, _) =>
      let E := fresh "E" in
      apply MonadFacts.perform_ok in H as [E ->]; try (inversion E; clear E)
  | lift _ _ = (_, _) =>
      let E := fresh "E" in
      apply MonadFacts.lift_inv in H as [E ->]
  | ret _ _ = (_, _) =>
      let E := fresh "E" in
      apply MonadFacts.ret_inv in H as [E ->]; try (inversion E; clear E)
  | try_except _ (fun err => raise _) _ = (Ok _, _) =>
      apply MonadFacts.try_reraise_ok in H; step_ok H
  | for_each _ _ _ = (Ok _, _) =>
      cbn [for_each] in H; step_ok H
  | _ => idtac
  end.

Ltac step_raise H :=
  match type of H with
  | bind _ _ _ = (Raise _, _) =>
      let a := fresh "a" in let s := fresh "st" in
      let H1 := fresh "Hm" in let H2 := fresh "Hk" in
      apply MonadFacts.bind_raise in H as [H | (a & s & H1 & H2)];
      [step_raise H | step_ok H1; step_raise H2]
  | call _ _ _ = (Raise _, _) =>
      let F := fresh "Hfault" in
      apply MonadFacts.call_raise in H as [F ->]
  | perform _ _ = (Raise _, _) =>
      let E := fresh "E" in
      apply MonadFacts.perform_ok in H as [E _]; discriminate E
  | ret _ _ = (Raise _, _) =>
      let E := fresh "E" in
      apply MonadFacts.ret_inv in H as [E _]; discriminate E
  | lift _ _ = (Raise _, _) =>
      let E := fresh "E" in
      apply MonadFacts.lift_inv in H as [E ->]
  | try_except _ (fun err => raise _) _ = (Raise _, _) =>
      let c := fresh "cause" in
      apply MonadFacts.try_reraise_raise in H as (c & H & ->); step_raise H
  | for_each _ _ _ = (Raise _, _) =>
      cbn [for_each] in H; step_raise H
  | _ => idtac
  end.

(** ** Runs of the method *)

Module RunFacts.

Lemma apply_events_app evs1 evs2 st :
  apply_events (evs1 ++ evs2) st = apply_events evs2 (apply_events evs1 st).
Proof. unfold apply_events. apply fold_left_app. Qed.

Lemma trace_apply_event ev st :
  trace (apply_event ev st) = trace st ++ [ev].
Proof. destruct ev; reflexivity. Qed.

Lemma trace_apply_events evs st :
  trace (apply_events evs st) = trace st ++ evs.
Proof.
  revert st. induction evs as [|ev evs IH]; intros st; simpl.
  - now rewrite List.app_nil_r.
  - rewrite IH, trace_apply_event, <- List.app_assoc. reflexivity.
Qed.

Lemma flags_apply_events evs st :
  forallb (fun ev => negb (is_setflag ev)) evs = true ->
  helper_flags (apply_events evs st) = helper_flags st.
Proof.
  revert st. induction evs as [|ev evs IH]; intros st H; simpl in *.
  - reflexivity.
  - apply andb_prop in H as [Hev Hevs]. rewrite (IH _ Hevs).
    destruct ev; try reflexivity; discriminate.
Qed.

Section WithEnv.
Context (env : Env) (self : Installer).

Lemma deploy_uefi_ok efi mp st cmd st' :
  deploy_uefi env self efi mp st = (Ok cmd, st') ->
  anchored mp = true
  /\ cmd = uefi_hook_command mp
  /\ st' = apply_events (uefi_events self efi mp) st.
Proof.
  unfold deploy_uefi. intros H. step_ok H. subst.
  match goal with
  | E : Ok ?r = match PathOps.relative_to_root mp with _ => _ end |- _ =>
      unfold PathOps.relative_to_root in E;
      destruct (anchored mp); [inversion E; subst r | discriminate E]
  end.
  repeat split.
Qed.

Lemma deploy_bios_ok bp st cmd st' :
  deploy_bios env self bp st = (Ok cmd, st') ->
  exists dev,
    resolved_parent env bp = Ok dev
    /\ cmd = bios_hook_command dev
    /\ st' = apply_events (bios_events self dev) st.
Proof.
  unfold deploy_bios. intros H. step_ok H. subst.
  unfold resolved_parent.
  repeat match goal with
         | E : Ok _ = _ |- _ => rewrite <- E; clear E
         end.
  match goal with
  | u : option Path |- _ => destruct u; eexists; repeat split
  end.
Qed.

Lemma deploy_ok bp efi_partition st cmd st' :
  deploy env self bp efi_partition st = (Ok cmd, st') ->
  exists evs,
    deployed env self bp efi_partition evs cmd
    /\ st' = apply_events evs st.
Proof.
  unfold deploy, deployed. destruct (has_uefi env).
  - destruct efi_partition as [efi|]; [| discriminate].
    destruct (mountpoint efi) as [mp|] eqn:Hmp; [| discriminate].
    intros H. apply deploy_uefi_ok in H as (Ha & -> & ->).
    exists (uefi_events self efi mp). split; [| reflexivity].
    now exists efi, mp.
  - intros H. apply deploy_bios_ok in H as (dev & Hd & -> & ->).
    exists (bios_events self dev). split; [| reflexivity].
    now exists dev.
Qed.

Lemma deploy_uefi_raise efi mp st e st' :
  deploy_uefi env self efi mp st = (Raise e, st') ->
  exists cause n,
    e = uefi_disk_error self mp cause
    /\ uefi_cause env self efi mp cause
    /\ 1 <= n <= 3
    /\ st' = apply_events (firstn n (uefi_events self efi mp)) st.
Proof.
  unfold deploy_uefi, PathOps.relative_to_root. intros H.
  destruct (anchored mp) eqn:Hanch; step_raise H;
    try discriminate; subst.
  all: repeat match goal with
         | E : Ok _ = Ok _ |- _ => inversion E; clear E; subst
         | E : Raise _ = Raise _ |- _ => inversion E; clear E; subst
         end.
  all: eexists.
  1: exists 1. 2: exists 2. 3: exists 3. 4: exists 1.
  all: split; [reflexivity |]; split; [| split; [lia | reflexivity]].
  1-3: right; split; [assumption |]; eexists; split; [| eassumption];
    simpl; tauto.
  left. split; [assumption | reflexivity].
Qed.

Lemma deploy_bios_raise bp st e st' :
  deploy_bios env self bp st = (Raise e, st') ->
  (resolved_parent env bp = Raise e /\ st' = st)
  \/ exists dev cause n,
       resolved_parent env bp = Ok dev
       /\ e = bios_disk_error dev cause
       /\ raised_by env (bios_events self dev) cause
       /\ n <= 1
       /\ st' = apply_events (firstn n (bios_events self dev)) st.
Proof.
  unfold deploy_bios, resolved_parent. intros H. step_raise H; subst.
  all: repeat match goal with
         | E : Ok _ = _ |- _ => rewrite <- E; clear E
         | E : Raise _ = _ |- _ => rewrite <- E; clear E
         end.
  1-3: now left.
  all: right;
    match goal with
    | u : option Path |- _ => destruct u
    end.
  all: eexists; eexists.
  1-2: exists 0. 3-4: exists 1.
  all: split; [reflexivity |]; split; [reflexivity |];
    split; [| split; [lia | reflexivity]].
  all: eexists; split; [| eassumption]; simpl; tauto.
Qed.

Lemma deploy_raise bp efi_partition root st e st' :
  deploy env self bp efi_partition st = (Raise e, st') ->
  exists evs,
    st' = apply_events evs st
    /\ failure env self bp efi_partition root e (prologue bp ++ evs).
Proof.
  unfold deploy. destruct (has_uefi env) eqn:Hfw.
  - destruct efi_partition as [efi|] eqn:Hefi.
    + destruct (mountpoint efi) as [mp|] eqn:Hmp.
      * intros H.
        apply deploy_uefi_raise in H as (cause & n & -> & Hc & Hn & ->).
        exists (firstn n (uefi_events self efi mp)).
        split; [reflexivity |]. now apply FUefiDeploy.
      * intros H. inversion H; subst. exists [].
        split; [reflexivity |]. rewrite List.app_nil_r.
        now apply (FNotMounted _ _ _ _ _ efi).
      + intros H. inversion H; subst. exists [].
        split; [reflexivity |]. rewrite List.app_nil_r.
        now apply FNoEfi.
  - intros H. apply deploy_bios_raise in H
      as [[Hr ->] | (dev & cause & n & Hr & -> & Hc & Hn & ->)].
    + exists []. split; [reflexivity |]. rewrite List.app_nil_r.
      now apply FBiosResolve.
    + exists (firstn n (bios_events self dev)).
      split; [reflexivity |]. now apply FBiosDeploy.
Qed.

(** A successful run is the run of [run_events]. *)
Lemma run_ok bp efi_partition root st st' :
  _add_limine_bootloader env self bp efi_partition root st = (Ok tt, st') ->
  exists evs cmd params,
    deployed env self bp efi_partition evs cmd
    /\ _get_kernel_params env root = Ok params
    /\ st' = apply_events (run_events self bp evs cmd params) st.
Proof.
  unfold _add_limine_bootloader. intros H. step_ok H. subst.
  match goal with
  | D : deploy _ _ _ _ _ = (Ok ?c, _) |- _ =>
      apply deploy_ok in D as (evs & Hd & ->); exists evs, c
  end.
  match goal with
  | E : Ok ?p = _get_kernel_params _ _ |- _ => exists p; symmetry in E
  end.
  split; [exact Hd |]. split; [assumption |].
  unfold run_events. rewrite !apply_events_app. reflexivity.
Qed.

(** Conversely, when the firmware branch can be deployed, no call of the
    run fails and the kernel parameters can be derived, the run succeeds. *)
Lemma run_succeeds bp efi_partition root st evs cmd params :
  deployed env self bp efi_partition evs cmd ->
  _get_kernel_params env root = Ok params ->
  (forall ev, In ev (run_events self bp evs cmd params) ->
              fault env ev = None) ->
  _add_limine_bootloader env self bp efi_partition root st
  = (Ok tt, apply_events (run_events self bp evs cmd params) st).
Proof.
  unfold deployed. intros Hd Hp Hf.
  unfold _add_limine_bootloader, deploy, deploy_uefi, deploy_bios,
    resolved_parent in *.
  destruct (has_uefi env).
  - destruct Hd as (efi & mp & -> & Hmp & Ha & -> & ->).
    unfold run_events, uefi_events in Hf.
    unfold for_each.
    unfold bind, perform, call, lift, try_except, ret,
      PathOps.relative_to_root.
    rewrite Hmp, Ha, Hp.
    repeat match goal with
           | |- context [fault env ?ev] =>
               rewrite (Hf ev) by (simpl; tauto)
           end.
    reflexivity.
  - destruct Hd as (dev & Hres & -> & ->).
    unfold run_events, bios_events in Hf.
    unfold bind, perform, call, lift, try_except, ret.
    destruct (safe_dev_path env bp) as [d|]; [| discriminate].
    destruct (get_parent_device_path env d) as [parent|]; [| discriminate].
    destruct (get_unique_path_for_device env parent) as [[u|]|];
      [| | discriminate]; inversion Hres; subst dev; rewrite Hp.
    all: repeat match goal with
                | |- context [fault env ?ev] =>
                    rewrite (Hf ev) by (simpl; tauto)
                end.
    all: reflexivity.
Qed.

(** A failed run is one of the [failure]s. *)
Lemma run_raise bp efi_partition root st e st' :
  _add_limine_bootloader env self bp efi_partition root st
    = (Raise e, st') ->
  exists evs,
    failure env self bp efi_partition root e evs
    /\ st' = apply_events evs st.
Proof.
  unfold _add_limine_bootloader. intros H. step_raise H; subst.
  all: try match goal with
         | D : deploy _ _ _ _ _ = (Ok _, _) |- _ =>
             apply deploy_ok in D as (evs & Hd & ->)
         end.
  all: try match goal with
         | E : _ = _get_kernel_params _ _ |- _ => symmetry in E
         end.
  - eexists. split; [now apply FStrap | reflexivity].
  - match goal with
    | D : deploy _ _ _ _ _ = (Raise _, _) |- _ =>
        apply (deploy_raise _ _ root) in D as (evs & -> & Hf)
    end.
    eexists. split; [exact Hf |].
    now rewrite apply_events_app.
  - eexists. split; [eapply FHooksDir; eassumption |].
    now rewrite apply_events_app.
  - eexists. split; [eapply FHookWrite; eassumption |].
    now rewrite !apply_events_app.
  - eexists. split; [eapply FKernelParams; eassumption |].
    now rewrite !apply_events_app.
  - eexists. split; [eapply FConfigWrite; eassumption |].
    now rewrite !apply_events_app.
Qed.

End WithEnv.

End RunFacts.

(** ** The state a successful run leaves *)

Module FinalFacts.
Import RunFacts.

Lemma deployed_quiet env self bp efi_partition evs cmd :
  deployed env self bp efi_partition evs cmd ->
  forallb (fun ev => negb (is_write ev)) evs = true
  /\ forallb (fun ev => negb (is_setflag ev)) evs = true.
Proof.
  unfold deployed. destruct (has_uefi env).
  - intros (efi & mp & _ & _ & _ & -> & _). split; reflexivity.
  - intros (dev & _ & -> & _). split; reflexivity.
Qed.

Lemma config_written env self bp efi_partition root st st' :
  _add_limine_bootloader env self bp efi_partition root st = (Ok tt, st') ->
  exists params,
    _get_kernel_params env root = Ok params
    /\ config_file self st'
       = Some (render_config (kernels self) (kernel_cmdline params)).
Proof.
  intros H. apply run_ok in H as (evs & cmd & params & _ & Hp & ->).
  exists params. split; [exact Hp |].
  unfold config_file, run_events. rewrite !apply_events_app.
  apply lookup_insert_eq.
Qed.

Lemma flag_recorded env self bp efi_partition root st st' :
  _add_limine_bootloader env self bp efi_partition root st = (Ok tt, st') ->
  helper_flags st' !! "bootloader" = Some "limine".
Proof.
  intros H. apply run_ok in H as (evs & cmd & params & _ & _ & ->).
  unfold run_events. rewrite !apply_events_app.
  apply lookup_insert_eq.
Qed.

(** The stanzas of the written boot-menu file. *)
Lemma config_stanzas env self bp efi_partition root st st' params :
  _get_kernel_params env root = Ok params ->
  forallb no_newline (kernels self) = true ->
  forallb no_newline params = true ->
  _add_limine_bootloader env self bp efi_partition root st = (Ok tt, st') ->
  exists text,
    config_file self st' = Some text
    /\ Str.lines text
       = config_lines (kernels self) (kernel_cmdline params) ++ [""]
    /\ stanzas text
       = expected_stanzas (kernels self) (kernel_cmdline params).
Proof.
  intros Hp Hks Hps H.
  apply config_written in H as (params' & Hp' & Hfile).
  rewrite Hp in Hp'. inversion Hp'; subst params'.
  eexists. split; [exact Hfile |].
  pose proof (ConfigFacts.no_newline_cmdline params Hps) as Hc.
  split.
  - now apply ConfigFacts.lines_render_config.
  - now apply ConfigFacts.stanzas_render_config.
Qed.

End FinalFacts.

(** * The boot-menu file *)

(** C2 (amended).  With the kernel list [["linux-zen"]] a successful run
    writes a boot-menu file of exactly two stanzas, the primary one and then
    the fallback one.  Both name the kernel image [vmlinuz-linux-zen]; the
    module path is [initramfs-linux-zen.img] in the first and
    [initramfs-linux-zenfallback.img] in the second.  The two stanzas are
    equal apart from the module-path line and the label line, which carries
    the variant. *)
Theorem zen_boot_menu env self bp efi_partition root st st' params :
  kernels self = ["linux-zen"] ->
  _get_kernel_params env root = Ok params ->
  forallb no_newline params = true ->
  _add_limine_bootloader env self bp efi_partition root st = (Ok tt, st') ->
  exists text primary fallback,
    config_file self st' = Some text
    /\ stanzas text = [primary; fallback]
    /\ stanza_label primary = ":Polaris Linux "
    /\ stanza_label fallback = ":Polaris Linux fallback"
    /\ stanza_value "KERNEL_PATH" primary = Some "boot:///vmlinuz-linux-zen"
    /\ stanza_value "KERNEL_PATH" fallback = Some "boot:///vmlinuz-linux-zen"
    /\ stanza_value "MODULE_PATH" primary
       = Some "boot:///initramfs-linux-zen.img"
    /\ stanza_value "MODULE_PATH" fallback
       = Some "boot:///initramfs-linux-zenfallback.img"
    /\ without (fun l => is_label l || is_module_path l) primary
       = without (fun l => is_label l || is_module_path l) fallback.
Proof.
  intros Hks Hp Hps Hrun.
  destruct (FinalFacts.config_stanzas env self bp efi_partition root st st'
              params Hp) as (text & Hfile & _ & Hst);
    [now rewrite Hks | exact Hps | exact Hrun |].
  rewrite Hks in Hst.
  exists text, (stanza_lines "linux-zen" "" (kernel_cmdline params)),
    (stanza_lines "linux-zen" "fallback" (kernel_cmdline params)).
  split; [exact Hfile |]. split; [exact Hst |].
  repeat split.
Qed.

Lemma zen_boot_menu_witness :
  exists text primary fallback,
    config_file Sample.installer (snd Sample.uefi_run) = Some text
    /\ stanzas text = [primary; fallback]
    /\ stanza_label primary = ":Polaris Linux "
    /\ stanza_label fallback = ":Polaris Linux fallback"
    /\ stanza_value "KERNEL_PATH" primary = Some "boot:///vmlinuz-linux-zen"
    /\ stanza_value "KERNEL_PATH" fallback = Some "boot:///vmlinuz-linux-zen"
    /\ stanza_value "MODULE_PATH" primary
       = Some "boot:///initramfs-linux-zen.img"
    /\ stanza_value "MODULE_PATH" fallback
       = Some "boot:///initramfs-linux-zenfallback.img"
    /\ without (fun l => is_label l || is_module_path l) primary
       = without (fun l => is_label l || is_module_path l) fallback.
Proof.
  apply (zen_boot_menu (Sample.world true Sample.no_fault) Sample.installer
           Sample.boot (Some Sample.boot) Sample.root init_state
           (snd Sample.uefi_run) Sample.params);
    [reflexivity | reflexivity | reflexivity | vm_compute; reflexivity].
Defined.

(** C2, as stated, fails: in the file written for [["linux-zen"]] the two
    stanzas still differ once their module-path lines are removed, because
    the label lines differ. *)
Lemma zen_stanzas_differ_in_label :
  exists text primary fallback,
    fst Sample.uefi_run = Ok tt
    /\ config_file Sample.installer (snd Sample.uefi_run) = Some text
    /\ stanzas text = [primary; fallback]
    /\ without is_module_path primary <> without is_module_path fallback
    /\ stanza_label primary <> stanza_label fallback.
Proof.
  eexists. eexists. eexists.
  split; [vm_compute; reflexivity |].
  split; [vm_compute; reflexivity |].
  split; [vm_compute; reflexivity |].
  split; vm_compute; discriminate.
Qed.

(** C6.  With two kernel identifiers the boot-menu file holds exactly four
    stanzas: the two of the first kernel, then the two of the second, and
    for each kernel the primary stanza before the fallback one.  (The
    identifiers need not even differ.) *)
Theorem two_kernels_four_stanzas env self bp efi_partition root st st'
    params k1 k2 :
  kernels self = [k1; k2] ->
  no_newline k1 = true -> no_newline k2 = true ->
  _get_kernel_params env root = Ok params ->
  forallb no_newline params = true ->
  _add_limine_bootloader env self bp efi_partition root st = (Ok tt, st') ->
  exists text,
    config_file self st' = Some text
    /\ length (stanzas text) = 4
    /\ map (stanza_value "KERNEL_PATH") (stanzas text)
       = [ Some ("boot:///vmlinuz-" +:+ k1); Some ("boot:///vmlinuz-" +:+ k1);
           Some ("boot:///vmlinuz-" +:+ k2); Some ("boot:///vmlinuz-" +:+ k2) ]
    /\ map (stanza_value "MODULE_PATH") (stanzas text)
       = [ Some ("boot:///initramfs-" +:+ k1 +:+ ".img");
           Some ("boot:///initramfs-" +:+ k1 +:+ "fallback.img");
           Some ("boot:///initramfs-" +:+ k2 +:+ ".img");
           Some ("boot:///initramfs-" +:+ k2 +:+ "fallback.img") ]
    /\ map stanza_label (stanzas text)
       = [ ":Polaris Linux "; ":Polaris Linux fallback";
           ":Polaris Linux "; ":Polaris Linux fallback" ].
Proof.
  intros Hks Hk1 Hk2 Hp Hps Hrun.
  destruct (FinalFacts.config_stanzas env self bp efi_partition root st st'
              params Hp) as (text & Hfile & _ & Hst);
    [rewrite Hks; simpl; now rewrite Hk1, Hk2 | exact Hps | exact Hrun |].
  rewrite Hks in Hst.
  exists text. split; [exact Hfile |]. rewrite Hst.
  repeat split.
Qed.

Lemma two_kernels_four_stanzas_witness :
  exists text,
    config_file Sample.installer2 (snd Sample.uefi_run2) = Some text
    /\ length (stanzas text) = 4
    /\ map (stanza_value "KERNEL_PATH") (stanzas text)
       = [ Some "boot:///vmlinuz-linux-zen"; Some "boot:///vmlinuz-linux-zen";
           Some "boot:///vmlinuz-linux-lts"; Some "boot:///vmlinuz-linux-lts" ]
    /\ map (stanza_value "MODULE_PATH") (stanzas text)
       = [ Some "boot:///initramfs-linux-zen.img";
           Some "boot:///initramfs-linux-zenfallback.img";
           Some "boot:///initramfs-linux-lts.img";
           Some "boot:///initramfs-linux-ltsfallback.img" ]
    /\ map stanza_label (stanzas text)
       = [ ":Polaris Linux "; ":Polaris Linux fallback";
           ":Polaris Linux "; ":Polaris Linux fallback" ].
Proof.
  apply (two_kernels_four_stanzas (Sample.world true Sample.no_fault)
           Sample.installer2 Sample.boot (Some Sample.boot) Sample.root
           init_state (snd Sample.uefi_run2) Sample.params
           "linux-zen" "linux-lts");
    [reflexivity | reflexivity | reflexivity | reflexivity | reflexivity
    | vm_compute; reflexivity].
Defined.

(** C7.  Whatever the kernel list, the boot-menu file has exactly one
    timeout line, [TIMEOUT=5]; it is the first line of the file, so every
    label line, and with it every stanza, comes after it. *)
Theorem timeout_line_once_and_first env self bp efi_partition root st st'
    params :
  forallb no_newline (kernels self) = true ->
  _get_kernel_params env root = Ok params ->
  forallb no_newline params = true ->
  _add_limine_bootloader env self bp efi_partition root st = (Ok tt, st') ->
  exists text,
    config_file self st' = Some text
    /\ count_lines is_timeout (Str.lines text) = 1
    /\ Str.lines text !! 0 = Some "TIMEOUT=5"
    /\ forall (i : nat) (l : string),
         Str.lines text !! i = Some l -> is_label l = true -> 0 < i.
Proof.
  intros Hks Hp Hps Hrun.
  destruct (FinalFacts.config_stanzas env self bp efi_partition root st st'
              params Hp Hks Hps Hrun) as (text & Hfile & Hlines & _).
  exists text. split; [exact Hfile |]. rewrite Hlines.
  unfold config_lines. split; [| split].
  - change (1 + count_lines is_timeout
                  (flat_map (kernel_lines (kernel_cmdline params))
                            (kernels self) ++ [""]) = 1).
    rewrite ConfigFacts.count_lines_app, ConfigFacts.no_timeout_in_kernels.
    reflexivity.
  - reflexivity.
  - intros [|i] l Hl Hlab; [| lia].
    inversion Hl; subst l. discriminate Hlab.
Qed.

Lemma timeout_line_once_and_first_witness :
  exists text,
    config_file Sample.installer2 (snd Sample.uefi_run2) = Some text
    /\ count_lines is_timeout (Str.lines text) = 1
    /\ Str.lines text !! 0 = Some "TIMEOUT=5"
    /\ forall (i : nat) (l : string),
         Str.lines text !! i = Some l -> is_label l = true -> 0 < i.
Proof.
  apply (timeout_line_once_and_first (Sample.world true Sample.no_fault)
           Sample.installer2 Sample.boot (Some Sample.boot) Sample.root
           init_state (snd Sample.uefi_run2) Sample.params);
    [reflexivity | reflexivity | reflexivity | vm_compute; reflexivity].
Defined.

(** C9.  The label of a stanza is [:Polaris Linux ] followed by the variant
    and nothing else: the list of labels is the same two labels repeated
    once per kernel, whatever the kernels are called.  So the primary
    stanzas of any two kernels share one label and their fallback stanzas
    share another. *)
Theorem labels_ignore_kernel env self bp efi_partition root st st' params :
  forallb no_newline (kernels self) = true ->
  _get_kernel_params env root = Ok params ->
  forallb no_newline params = true ->
  _add_limine_bootloader env self bp efi_partition root st = (Ok tt, st') ->
  exists text,
    config_file self st' = Some text
    /\ map stanza_label (stanzas text)
       = flat_map (fun _ : string =>
                     [":Polaris Linux "; ":Polaris Linux fallback"])
                  (kernels self)
    /\ forall i j : nat,
         i < length (kernels self) -> j < length (kernels self) ->
         (map stanza_label (stanzas text) !! (2 * i) = Some ":Polaris Linux "
          /\ map stanza_label (stanzas text) !! (2 * j)
             = Some ":Polaris Linux ")
         /\ (map stanza_label (stanzas text) !! (2 * i + 1)
               = Some ":Polaris Linux fallback"
             /\ map stanza_label (stanzas text) !! (2 * j + 1)
                = Some ":Polaris Linux fallback").
Proof.
  intros Hks Hp Hps Hrun.
  destruct (FinalFacts.config_stanzas env self bp efi_partition root st st'
              params Hp Hks Hps Hrun) as (text & Hfile & _ & Hst).
  exists text. split; [exact Hfile |].
  rewrite Hst, ConfigFacts.labels_expected_stanzas.
  split; [reflexivity |].
  intros i j Hi Hj.
  destruct (ConfigFacts.lookup_pairs ":Polaris Linux "
              ":Polaris Linux fallback" (kernels self) i Hi) as [Hi0 Hi1].
  destruct (ConfigFacts.lookup_pairs ":Polaris Linux "
              ":Polaris Linux fallback" (kernels self) j Hj) as [Hj0 Hj1].
  repeat split; assumption.
Qed.

Lemma labels_ignore_kernel_witness :
  exists text,
    config_file Sample.installer2 (snd Sample.uefi_run2) = Some text
    /\ map stanza_label (stanzas text)
       = [ ":Polaris Linux "; ":Polaris Linux fallback";
           ":Polaris Linux "; ":Polaris Linux fallback" ]
    /\ forall i j : nat,
         i < 2 -> j < 2 ->
         (map stanza_label (stanzas text) !! (2 * i) = Some ":Polaris Linux "
          /\ map stanza_label (stanzas text) !! (2 * j)
             = Some ":Polaris Linux ")
         /\ (map stanza_label (stanzas text) !! (2 * i + 1)
               = Some ":Polaris Linux fallback"
             /\ map stanza_label (stanzas text) !! (2 * j + 1)
                = Some ":Polaris Linux fallback").
Proof.
  apply (labels_ignore_kernel (Sample.world true Sample.no_fault)
           Sample.installer2 Sample.boot (Some Sample.boot) Sample.root
           init_state (snd Sample.uefi_run2) Sample.params);
    [reflexivity | reflexivity | reflexivity | vm_compute; reflexivity].
Defined.

(** C10.  Every stanza of the boot-menu file carries the same command
    line: the kernel parameters derived from the root, then [quiet], then
    [splash], joined by spaces.  It depends neither on the kernel nor on
    the variant. *)
Theorem cmdline_shared env self bp efi_partition root st st' params :
  forallb no_newline (kernels self) = true ->
  _get_kernel_params env root = Ok params ->
  forallb no_newline params = true ->
  _add_limine_bootloader env self bp efi_partition root st = (Ok tt, st') ->
  exists text,
    config_file self st' = Some text
    /\ length (stanzas text) = 2 * length (kernels self)
    /\ Forall (fun stanza =>
                 stanza_value "CMDLINE" stanza
                 = Some (Str.join " " (params ++ ["quiet"; "splash"])))
              (stanzas text).
Proof.
  intros Hks Hp Hps Hrun.
  destruct (FinalFacts.config_stanzas env self bp efi_partition root st st'
              params Hp Hks Hps Hrun) as (text & Hfile & _ & Hst).
  exists text. split; [exact Hfile |]. rewrite Hst. split.
  - apply ConfigFacts.length_expected_stanzas.
  - rewrite <- ConfigFacts.kernel_cmdline_eq.
    apply ConfigFacts.cmdline_expected_stanzas.
Qed.

Lemma cmdline_shared_witness :
  exists text,
    config_file Sample.installer2 (snd Sample.uefi_run2) = Some text
    /\ length (stanzas text) = 4
    /\ Forall (fun stanza =>
                 stanza_value "CMDLINE" stanza
                 = Some "root=/dev/sda2 rw quiet splash")
              (stanzas text).
Proof.
  apply (cmdline_shared (Sample.world true Sample.no_fault)
           Sample.installer2 Sample.boot (Some Sample.boot) Sample.root
           init_state (snd Sample.uefi_run2) Sample.params);
    [reflexivity | reflexivity | reflexivity | vm_compute; reflexivity].
Defined.

(** * The run as a whole *)

Module FailureFacts.
Import RunFacts.

Lemma prefix_quiet (f : Event -> bool) (evs : list Event) n :
  forallb f evs = true -> forallb f (firstn n evs) = true.
Proof.
  revert n. induction evs as [|ev evs IH]; intros [|n] H; try reflexivity.
  simpl in *. apply andb_prop in H as [Hev Hevs].
  now rewrite Hev, (IH n Hevs).
Qed.

(** No failed run touches the helper flags. *)
Lemma failure_quiet env self bp efi_partition root e evs :
  failure env self bp efi_partition root e evs ->
  forallb (fun ev => negb (is_setflag ev)) evs = true.
Proof.
  intros H. destruct H;
    repeat match goal with
           | D : deployed _ _ _ _ _ _ |- _ =>
               apply FinalFacts.deployed_quiet in D as [? ?]
           end;
    rewrite ?forallb_app;
    repeat (apply andb_true_intro; split);
    try reflexivity; try assumption.
  all: apply prefix_quiet; reflexivity.
Qed.

Lemma resolved_parent_ok env bp device :
  resolved_parent env bp = Ok device ->
  exists dev parent unique,
    safe_dev_path env bp = Ok dev
    /\ get_parent_device_path env dev = Ok parent
    /\ get_unique_path_for_device env parent = Ok unique
    /\ device = match unique with Some u => u | None => parent end.
Proof.
  unfold resolved_parent.
  destruct (safe_dev_path env bp) as [dev|]; [| discriminate].
  destruct (get_parent_device_path env dev) as [parent|] eqn:Hp;
    [| discriminate].
  destruct (get_unique_path_for_device env parent) as [unique|] eqn:Hu;
    [| discriminate].
  intros H. exists dev, parent, unique.
  repeat split; try assumption.
  destruct unique; now inversion H.
Qed.

End FailureFacts.

(** C8.  A successful run leaves ["limine"] under ["bootloader"] in the
    helper flags, and the flag is set as the very last step, right after the
    boot-menu file has been written; nothing earlier touches the flags.  A
    run that fails leaves the flags as they were. *)
Theorem bootloader_flag_recorded env self bp efi_partition root st r st' :
  _add_limine_bootloader env self bp efi_partition root st = (r, st') ->
  match r with
  | Ok _ =>
      helper_flags st' !! "bootloader" = Some "limine"
      /\ exists before text,
           trace st'
           = trace st ++ before
               ++ [ EWriteText (config_path self) text;
                    ESetFlag "bootloader" "limine" ]
           /\ forallb (fun ev => negb (is_setflag ev)) before = true
           /\ config_file self st' = Some text
  | Raise _ =>
      helper_flags st' = helper_flags st
      /\ exists events,
           trace st' = trace st ++ events
           /\ forallb (fun ev => negb (is_setflag ev)) events = true
  end.
Proof.
  intros Hrun. destruct r as [[]|e].
  - split; [exact (FinalFacts.flag_recorded _ _ _ _ _ _ _ Hrun) |].
    destruct (FinalFacts.config_written _ _ _ _ _ _ _ Hrun)
      as (params & Hp & Hfile).
    apply RunFacts.run_ok in Hrun as (evs & cmd & params' & Hd & Hp' & ->).
    rewrite Hp in Hp'. inversion Hp'; subst params'.
    apply FinalFacts.deployed_quiet in Hd as [_ Hq].
    exists (prologue bp ++ evs
              ++ [ EMkdir (hooks_dir self);
                   EWriteText (hook_path self) (hook_contents cmd) ]).
    eexists. split; [| split; [| exact Hfile]].
    + rewrite RunFacts.trace_apply_events. unfold run_events, prologue.
      rewrite <- !List.app_assoc. reflexivity.
    + rewrite !forallb_app, Hq. reflexivity.
  - apply RunFacts.run_raise in Hrun as (evs & Hf & ->).
    apply FailureFacts.failure_quiet in Hf as Hq.
    split; [now apply RunFacts.flags_apply_events |].
    exists evs. split; [apply RunFacts.trace_apply_events | exact Hq].
Qed.

Lemma bootloader_flag_recorded_witness :
  helper_flags (snd Sample.uefi_run) !! "bootloader" = Some "limine"
  /\ exists before text,
       trace (snd Sample.uefi_run)
       = trace init_state ++ before
           ++ [ EWriteText (config_path Sample.installer) text;
                ESetFlag "bootloader" "limine" ]
       /\ forallb (fun ev => negb (is_setflag ev)) before = true
       /\ config_file Sample.installer (snd Sample.uefi_run) = Some text.
Proof.
  apply (bootloader_flag_recorded (Sample.world true Sample.no_fault)
           Sample.installer Sample.boot (Some Sample.boot) Sample.root
           init_state (Ok tt) (snd Sample.uefi_run)).
  vm_compute; reflexivity.
Defined.

(** C5.  In BIOS mode a successful run has resolved the parent device of
    the boot partition, taken its unique path instead when the device
    handler knows one, copied [limine-bios.sys] from the limine share
    directory into the target's [boot] directory, and run
    [limine bios-install] in the target exactly once, on that device. *)
Theorem bios_deployment env self bp efi_partition root st st' :
  has_uefi env = false ->
  _add_limine_bootloader env self bp efi_partition root st = (Ok tt, st') ->
  exists dev parent unique device events,
    safe_dev_path env bp = Ok dev
    /\ get_parent_device_path env dev = Ok parent
    /\ get_unique_path_for_device env parent = Ok unique
    /\ device = match unique with Some u => u | None => parent end
    /\ trace st' = trace st ++ events
    /\ In (ECopy (target self // "usr" // "share" // "limine"
                    // "limine-bios.sys")
                 (target self // "boot")) events
    /\ List.filter is_syscommand events
       = [ ESysCommand ("/usr/bin/arch-chroot " +:+ PathOps.str (target self)
                          +:+ " limine bios-install "
                          +:+ PathOps.str device) ].
Proof.
  intros Hfw Hrun.
  apply RunFacts.run_ok in Hrun as (evs & cmd & params & Hd & _ & ->).
  unfold deployed in Hd. rewrite Hfw in Hd.
  destruct Hd as (device & Hres & -> & ->).
  apply FailureFacts.resolved_parent_ok in Hres
    as (dev & parent & unique & Hdev & Hparent & Hunique & Hdevice).
  exists dev, parent, unique, device.
  eexists. repeat (split; [eassumption |]).
  split; [apply RunFacts.trace_apply_events |].
  split; [simpl; tauto | reflexivity].
Qed.

Lemma bios_deployment_witness :
  exists dev parent unique device events,
    safe_dev_path (Sample.world false Sample.no_fault) Sample.boot = Ok dev
    /\ get_parent_device_path (Sample.world false Sample.no_fault) dev
       = Ok parent
    /\ get_unique_path_for_device (Sample.world false Sample.no_fault) parent
       = Ok unique
    /\ device = match unique with Some u => u | None => parent end
    /\ trace (snd Sample.bios_run) = trace init_state ++ events
    /\ In (ECopy (target Sample.installer // "usr" // "share" // "limine"
                    // "limine-bios.sys")
                 (target Sample.installer // "boot")) events
    /\ List.filter is_syscommand events
       = [ ESysCommand ("/usr/bin/arch-chroot "
                          +:+ PathOps.str (target Sample.installer)
                          +:+ " limine bios-install "
                          +:+ PathOps.str device) ].
Proof.
  apply (bios_deployment (Sample.world false Sample.no_fault)
           Sample.installer Sample.boot None Sample.root init_state
           (snd Sample.bios_run));
    [reflexivity | vm_compute; reflexivity].
Defined.

(** * Failures *)

(** C1 (amended).  In either firmware mode, when the partition
    information the mode needs is missing (UEFI: no EFI partition, or an EFI
    partition without mount point; BIOS: a boot partition whose device path
    cannot be read), the run fails.  By then the method has logged and
    strapped the limine package into the target and done nothing else: no
    directory is created, no boot file copied, no command run, and neither
    the hook nor the boot-menu file is written.  Unless the strap itself
    failed, the failure is the ValueError of the guard (UEFI) or the error
    of the device path (BIOS). *)
Theorem guard_stops_after_strap env self bp efi_partition root st :
  missing_partition_info env bp efi_partition ->
  exists e st' events,
    _add_limine_bootloader env self bp efi_partition root st = (Raise e, st')
    /\ trace st' = trace st ++ events
    /\ (forall ev, In ev events -> mutates_target ev = true ->
                   ev = EStrap "limine")
    /\ files st' = files st
    /\ helper_flags st' = helper_flags st
    /\ (fault env (EStrap "limine") = None ->
        events = prologue bp
        /\ if has_uefi env
           then e = ValueError (match efi_partition with
                                | None => "Could not detect efi partition"
                                | Some _ => "EFI partition is not mounted"
                                end)
           else safe_dev_path env bp = Raise e).
Proof.
  unfold missing_partition_info. intros Hmiss.
  unfold _add_limine_bootloader, deploy, deploy_bios, bind, perform, call,
    raise, lift.
  destruct (fault env (EStrap "limine")) as [e|] eqn:Hstrap.
  - exists e. eexists. exists [ELog "debug" "Installing limine bootloader"].
    split; [reflexivity |]. split; [reflexivity |].
    split; [| split; [reflexivity | split; [reflexivity | discriminate]]].
    intros ev [<- | []]. discriminate.
  - destruct (has_uefi env).
    + destruct Hmiss as [-> | (efi & -> & Hmp)]; [| rewrite Hmp].
      all: eexists; eexists; exists (prologue bp).
      all: split; [reflexivity |].
      all: split; [simpl; rewrite <- !List.app_assoc; reflexivity |].
      all: split; [| split; [reflexivity | split; [reflexivity |]]].
      all: try (intros _; split; reflexivity).
      all: intros ev [<- | [<- | [<- | []]]]; try discriminate; reflexivity.
    + destruct Hmiss as (e & He). rewrite He.
      exists e. eexists. exists (prologue bp).
      split; [reflexivity |].
      split; [simpl; rewrite <- !List.app_assoc; reflexivity |].
      split; [| split; [reflexivity | split; [reflexivity |]]].
      * intros ev [<- | [<- | [<- | []]]]; try discriminate; reflexivity.
      * intros _. split; reflexivity.
Qed.

Lemma guard_stops_after_strap_witness :
  exists e st' events,
    _add_limine_bootloader (Sample.world true Sample.no_fault)
      Sample.installer Sample.boot (Some Sample.unmounted) Sample.root
      init_state = (Raise e, st')
    /\ trace st' = trace init_state ++ events
    /\ (forall ev, In ev events -> mutates_target ev = true ->
                   ev = EStrap "limine")
    /\ files st' = files init_state
    /\ helper_flags st' = helper_flags init_state
    /\ (fault (Sample.world true Sample.no_fault) (EStrap "limine") = None ->
        events = prologue Sample.boot
        /\ e = ValueError "EFI partition is not mounted").
Proof.
  apply (guard_stops_after_strap (Sample.world true Sample.no_fault)
           Sample.installer Sample.boot (Some Sample.unmounted) Sample.root
           init_state).
  right. exists Sample.unmounted. split; reflexivity.
Defined.

(** C1, as stated, fails: with no EFI partition in UEFI mode the guard
    raises only after the limine package has been strapped into the
    target. *)
Lemma strap_precedes_efi_guard :
  fst (_add_limine_bootloader (Sample.world true Sample.no_fault)
         Sample.installer Sample.boot None Sample.root init_state)
  = Raise (ValueError "Could not detect efi partition")
  /\ List.filter mutates_target
       (trace (snd (_add_limine_bootloader
                      (Sample.world true Sample.no_fault)
                      Sample.installer Sample.boot None Sample.root
                      init_state)))
     = [EStrap "limine"].
Proof. split; vm_compute; reflexivity. Qed.

(** C4 (amended).  A failed run raises one of three things.  The two EFI
    guards raise a ValueError with a fixed text and no path.  A failure
    inside the deployment block of either firmware mode is wrapped into a
    DiskError whose text names the target and mount point (UEFI) or the
    resolved parent device (BIOS), followed by the text of the cause.  Any
    other failure, of the strap, of the device resolution, of the hook
    directory or hook file, of the kernel parameters or of the boot-menu
    file, is the collaborator's own exception, unchanged. *)
Theorem failure_kinds env self bp efi_partition root st e st' :
  _add_limine_bootloader env self bp efi_partition root st = (Raise e, st') ->
  guard_error env efi_partition e
  \/ deployment_error env self bp efi_partition e
  \/ collaborator_error env self bp root e.
Proof.
  intros Hrun. apply RunFacts.run_raise in Hrun as (evs & Hf & _).
  unfold guard_error, deployment_error, collaborator_error.
  destruct Hf.
  - right; right. now left.
  - left. split; [assumption |]. now left.
  - left. split; [assumption |]. right. now exists efi.
  - right; left; left. now exists efi, mp, cause.
  - right; right. right; left. now split.
  - right; left; right. now exists dev, cause.
  - right; right. right; right. now left.
  - right; right. right; right; right; left. eauto.
  - right; right. right; right; right; right. now left.
  - right; right. right; right; right; right; right. eauto.
Qed.

Lemma failure_kinds_witness :
  guard_error (Sample.world true Sample.copy_fails) (Some Sample.boot)
    Sample.disk_full
  \/ deployment_error (Sample.world true Sample.copy_fails) Sample.installer
       Sample.boot (Some Sample.boot) Sample.disk_full
  \/ collaborator_error (Sample.world true Sample.copy_fails)
       Sample.installer Sample.boot Sample.root Sample.disk_full.
Proof.
  apply (failure_kinds (Sample.world true Sample.copy_fails)
           Sample.installer Sample.boot (Some Sample.boot) Sample.root
           init_state Sample.disk_full
           (snd (_add_limine_bootloader
                   (Sample.world true Sample.copy_fails)
                   Sample.installer Sample.boot (Some Sample.boot)
                   Sample.root init_state))).
  vm_compute; reflexivity.
Defined.

(** C4, as stated, fails: the guard for an unmounted EFI partition raises a
    ValueError, not a DiskError, and its text names no path or device. *)
Lemma efi_guard_raises_value_error :
  fst (_add_limine_bootloader (Sample.world true Sample.no_fault)
         Sample.installer Sample.boot (Some Sample.unmounted) Sample.root
         init_state)
  = Raise (ValueError "EFI partition is not mounted")
  /\ is_DiskError (ValueError "EFI partition is not mounted") = false.
Proof. split; vm_compute; reflexivity. Qed.

(** * The upgrade hook *)

Module ShFacts.
Import Str StrFacts.

(** ** Plain words *)

Lemma plain_no_special (s : string) (c : ascii) :
  Sh.plain s = true -> In c Sh.special_chars -> has_char c s = false.
Proof.
  intros Hs Hc. induction s as [|a s IH]; [reflexivity |].
  change (Sh.plain (String a s))
    with (negb (existsb (Ascii.eqb a) Sh.special_chars) && Sh.plain s) in Hs.
  apply andb_prop in Hs as [Ha Hs].
  simpl. destruct (Ascii.eqb a c) eqn:Hac; [| exact (IH Hs)].
  apply Ascii.eqb_eq in Hac. subst a.
  apply negb_true_iff in Ha.
  assert (existsb (Ascii.eqb c) Sh.special_chars = true) as Hex.
  { apply existsb_exists. exists c. split; [exact Hc |].
    apply Ascii.eqb_refl. }
  congruence.
Qed.

Lemma special_not_in_separators (c : ascii) :
  In c Sh.special_chars -> has_char c "/" = false /\ has_char c "." = false.
Proof.
  unfold Sh.special_chars. intros H.
  repeat (destruct H as [<- | H]; [split; reflexivity |]).
  destruct H.
Qed.

Lemma plain_path_str (p : Path) (c : ascii) :
  Sh.plain_path p = true -> In c Sh.special_chars ->
  has_char c (PathOps.str p) = false.
Proof.
  unfold Sh.plain_path. intros Hp Hc.
  apply andb_prop in Hp as [_ Hp]. apply andb_prop in Hp as [Hp _].
  destruct (special_not_in_separators c Hc) as [Hslash Hdot].
  assert (has_char c (join "/" (parts p)) = false) as Hj.
  { apply has_char_join; [exact Hslash |].
    induction (parts p) as [|x xs IH]; [reflexivity |].
    simpl in Hp. apply andb_prop in Hp as [Hx Hxs].
    simpl. rewrite (plain_no_special x c Hx Hc). exact (IH Hxs). }
  unfold PathOps.str. destruct (anchored p).
  - rewrite has_char_app, Hslash, Hj. reflexivity.
  - destruct (parts p); [exact Hdot | exact Hj].
Qed.

Lemma blank_special : In " "%char Sh.special_chars.
Proof. simpl; tauto. Qed.

Lemma newline_special : In "010"%char Sh.special_chars.
Proof. simpl; tauto. Qed.

Lemma ampersand_special : In "&"%char Sh.special_chars.
Proof. simpl; tauto. Qed.

Lemma str_not_empty (p : Path) :
  PathOps.wf p = true -> is_empty (PathOps.str p) = false.
Proof.
  unfold PathOps.wf, PathOps.str. intros Hp.
  destruct (anchored p); [reflexivity |].
  destruct (parts p) as [|x xs]; [reflexivity |].
  simpl in Hp. apply andb_prop in Hp as [Hx _].
  unfold PathOps.component_ok in Hx.
  apply andb_prop in Hx as [Hx _]. apply andb_prop in Hx as [Hx _].
  apply negb_true_iff in Hx.
  destruct x; [discriminate |]. destruct xs; reflexivity.
Qed.

(** ** Words *)

Lemma words_cons (w rest : string) :
  has_char " " w = false -> is_empty w = false ->
  Sh.words (w +:+ String " " rest) = w :: Sh.words rest.
Proof.
  intros Hw Hne. unfold Sh.words.
  rewrite split_on_field by exact Hw.
  simpl. now rewrite Hne.
Qed.

Lemma words_last (w : string) :
  has_char " " w = false -> is_empty w = false -> Sh.words w = [w].
Proof.
  intros Hw Hne. unfold Sh.words.
  rewrite split_on_single by exact Hw.
  simpl. now rewrite Hne.
Qed.

(** ** Paths read back from their text *)

Lemma component_no_slash (x : string) :
  PathOps.component_ok x = true -> has_char "/" x = false.
Proof.
  unfold PathOps.component_ok. intros H.
  apply andb_prop in H as [H _]. apply andb_prop in H as [_ H].
  now apply negb_true_iff in H.
Qed.

Lemma filter_keep {A} (f : A -> bool) (x : A) (l : list A) :
  f x = true -> List.filter f (x :: l) = x :: List.filter f l.
Proof. intros H. simpl. now rewrite H. Qed.

(** Components joined by slashes and followed by a slash split back. *)
Lemma split_joined (xs : list string) (rest : string) :
  forallb PathOps.component_ok xs = true ->
  List.filter PathOps.component_ok
    (split_on "/" (join "/" xs +:+ String "/" rest))
  = xs ++ List.filter PathOps.component_ok (split_on "/" rest).
Proof.
  induction xs as [|x xs IH]; intros Hxs.
  - reflexivity.
  - simpl in Hxs. apply andb_prop in Hxs as [Hx Hxs].
    destruct xs as [|y ys].
    + change (join "/" [x]) with x.
      rewrite split_on_field by now apply component_no_slash.
      simpl. now rewrite Hx.
    + change (join "/" (x :: y :: ys))
        with (x +:+ String "/" (join "/" (y :: ys))).
      rewrite str_app_assoc.
      change (String "/" (join "/" (y :: ys)) +:+ String "/" rest)
        with (String "/" (join "/" (y :: ys) +:+ String "/" rest)).
      rewrite split_on_field by now apply component_no_slash.
      rewrite (filter_keep _ _ _ Hx), (IH Hxs). reflexivity.
Qed.

Lemma split_joined_end (xs : list string) :
  forallb PathOps.component_ok xs = true ->
  List.filter PathOps.component_ok (split_on "/" (join "/" xs)) = xs.
Proof.
  induction xs as [|x xs IH]; intros Hxs; [reflexivity |].
  simpl in Hxs. apply andb_prop in Hxs as [Hx Hxs].
  destruct xs as [|y ys].
  - change (join "/" [x]) with x.
    rewrite split_on_single by now apply component_no_slash.
    simpl. now rewrite Hx.
  - change (join "/" (x :: y :: ys))
      with (x +:+ String "/" (join "/" (y :: ys))).
    rewrite split_on_field by now apply component_no_slash.
    rewrite (filter_keep _ _ _ Hx), (IH Hxs). reflexivity.
Qed.

Lemma first_char_not_slash (x rest : string) :
  PathOps.component_ok x = true ->
  starts_with "/" (x +:+ rest) = false.
Proof.
  intros Hx. pose proof (component_no_slash x Hx) as Hs.
  unfold PathOps.component_ok in Hx.
  destruct x as [|a x]; [discriminate |].
  change (has_char "/" (String a x))
    with (if Ascii.eqb a "/" then true else has_char "/" x) in Hs.
  change (starts_with "/" (String a x +:+ rest))
    with (Ascii.eqb "/" a && true).
  destruct (Ascii.eqb a "/") eqn:Ha; [discriminate |].
  rewrite Ascii.eqb_sym, Ha. reflexivity.
Qed.

(** [PurePosixPath(str(p)) == p] *)
Lemma parse_str (p : Path) :
  PathOps.wf p = true -> Sh.parse_path (PathOps.str p) = p.
Proof.
  destruct p as [anch xs]. unfold PathOps.wf, PathOps.str, Sh.parse_path.
  simpl. intros Hxs. destruct anch.
  - change (split_on "/" (String "/" (join "/" xs)))
      with ("" :: split_on "/" (join "/" xs)).
    change (List.filter PathOps.component_ok
              ("" :: split_on "/" (join "/" xs)))
      with (List.filter PathOps.component_ok (split_on "/" (join "/" xs))).
    now rewrite (split_joined_end xs Hxs).
  - destruct xs as [|x xs]; [reflexivity |].
    rewrite (split_joined_end (x :: xs) Hxs). f_equal.
    simpl in Hxs. apply andb_prop in Hxs as [Hx _].
    destruct xs as [|y ys].
    + change (join "/" [x]) with x. rewrite <- (str_app_nil_r x).
      now apply first_char_not_slash.
    + change (join "/" (x :: y :: ys))
        with (x +:+ String "/" (join "/" (y :: ys))).
      now apply first_char_not_slash.
Qed.

(** ** The two files have different names *)

Lemma last_char_app (a b : string) :
  is_empty b = false -> last_char (a +:+ b) = last_char b.
Proof.
  intros Hb. induction a as [|c a IH]; [reflexivity |].
  change (last_char (String c a +:+ b))
    with (match last_char (a +:+ b) with
          | None => Some c
          | Some d => Some d
          end).
  rewrite IH. destruct b as [|d b]; [discriminate |].
  simpl. destruct (last_char b); reflexivity.
Qed.

Lemma last_char_join_snoc (xs : list string) (name : string) :
  is_empty name = false ->
  last_char (join "/" (xs ++ [name])) = last_char name.
Proof.
  intros Hn. induction xs as [|x xs IH]; [reflexivity |].
  destruct xs as [|y ys].
  - change (join "/" ([x] ++ [name])) with (x +:+ String "/" name).
    rewrite last_char_app by reflexivity.
    destruct name as [|d name]; [discriminate |].
    simpl. destruct (last_char name); reflexivity.
  - change (join "/" ((x :: y :: ys) ++ [name]))
      with (x +:+ String "/" (join "/" ((y :: ys) ++ [name]))).
    rewrite last_char_app by reflexivity.
    change (last_char (String "/" (join "/" ((y :: ys) ++ [name]))))
      with (match last_char (join "/" ((y :: ys) ++ [name])) with
            | None => Some "/"%char
            | Some d => Some d
            end).
    rewrite IH. destruct name as [|d name]; [discriminate |].
    simpl. destruct (last_char name); reflexivity.
Qed.

Lemma last_char_div (p : Path) (name : string) :
  is_empty name = false ->
  last_char (PathOps.str (p // name)) = last_char name.
Proof.
  intros Hn. unfold PathOps.str, PathOps.div.
  cbn [anchored parts]. destruct (anchored p).
  - rewrite last_char_app; [now apply last_char_join_snoc |].
    destruct (parts p) as [|x [|y ys]]; simpl.
    + exact Hn.
    + destruct x; reflexivity.
    + destruct x; reflexivity.
  - destruct (parts p ++ [name]) eqn:E.
    + now destruct (parts p).
    + rewrite <- E. now apply last_char_join_snoc.
Qed.

Lemma file_names_differ (self : Installer) :
  PathOps.str (config_path self) <> PathOps.str (hook_path self).
Proof.
  intros H. apply (f_equal last_char) in H.
  unfold config_path, hook_path in H.
  rewrite !last_char_div in H by reflexivity.
  discriminate H.
Qed.

(** ** The hook file read back *)

Lemma hook_contents_unlines (cmd : string) :
  hook_contents cmd
  = unlines [ "[Trigger]"; "Operation = Install"; "Operation = Upgrade";
              "Type = Package"; "Target = limine"; ""; "[Action]";
              "Description = Deploying Limine after upgrade...";
              "When = PostTransaction";
              ("Exec = /bin/sh -c " +:+ dquote) +:+ (cmd +:+ dquote) ].
Proof.
  unfold hook_contents, unlines. cbn [fold_right].
  rewrite !str_app_assoc. reflexivity.
Qed.

Lemma drop_last_quote_app (cmd : string) :
  Sh.drop_last_quote (cmd +:+ dquote) = Some cmd.
Proof.
  induction cmd as [|c cmd IH]; [reflexivity |].
  change (String c cmd +:+ dquote) with (String c (cmd +:+ dquote)).
  destruct (cmd +:+ dquote) as [|d r] eqn:E.
  - destruct cmd; discriminate E.
  - change (Sh.drop_last_quote (String c (String d r)))
      with (match Sh.drop_last_quote (String d r) with
            | Some r' => Some (String c r')
            | None => None
            end).
    now rewrite IH.
Qed.

Lemma exec_command_hook (cmd : string) :
  no_newline cmd = true ->
  Sh.exec_command (hook_contents cmd) = Some cmd.
Proof.
  intros Hc. unfold Sh.exec_command.
  rewrite hook_contents_unlines, ConfigFacts.lines_unlines.
  - cbn [app Sh.first_exec].
    repeat match goal with
           | |- context [Sh.exec_of_line ?l] =>
               lazymatch l with
               | _ +:+ _ => fail
               | _ => change (Sh.exec_of_line l) with (@None string)
               end
           end.
    cbv iota. unfold Sh.exec_of_line.
    rewrite strip_prefix_app, drop_last_quote_app. reflexivity.
  - unfold no_newline in *. apply negb_true_iff in Hc.
    cbn [forallb]. rewrite !has_char_app, Hc. reflexivity.
Qed.

(** The directory [<mount point>/EFI/BOOT/] as the hook spells it. *)
Lemma parse_efi_boot (mp : Path) :
  anchored mp = true -> PathOps.wf mp = true ->
  Sh.parse_path (PathOps.str mp +:+ "/EFI/BOOT/")
  = mkPath true (parts mp ++ ["EFI"; "BOOT"]).
Proof.
  destruct mp as [anch xs]. simpl. intros -> Hxs.
  unfold PathOps.wf in Hxs. simpl in Hxs.
  unfold PathOps.str, Sh.parse_path. cbv iota beta.
  change (anchored {| anchored := true; parts := xs |}) with true.
  change (parts {| anchored := true; parts := xs |}) with xs.
  cbv iota. rewrite str_app_assoc.
  change ("/" +:+ join "/" xs +:+ "/EFI/BOOT/")
    with (String "/" (join "/" xs +:+ String "/" "EFI/BOOT/")).
  f_equal.
  change (split_on "/" (String "/" (join "/" xs +:+ String "/" "EFI/BOOT/")))
    with ("" :: split_on "/" (join "/" xs +:+ String "/" "EFI/BOOT/")).
  change (List.filter PathOps.component_ok
            ("" :: split_on "/" (join "/" xs +:+ String "/" "EFI/BOOT/")))
    with (List.filter PathOps.component_ok
            (split_on "/" (join "/" xs +:+ String "/" "EFI/BOOT/"))).
  rewrite (split_joined xs "EFI/BOOT/" Hxs). reflexivity.
Qed.

(** ** The words of the three commands *)

Lemma is_empty_app_r (a b : string) :
  is_empty b = false -> is_empty (a +:+ b) = false.
Proof. intros Hb. destruct a; [exact Hb | reflexivity]. Qed.

Lemma not_and_operator (w : string) :
  has_char "&" w = false -> is_empty w = false ->
  String.eqb w "&&" = false.
Proof.
  destruct w as [|a w]; [discriminate |].
  change (has_char "&" (String a w))
    with (if Ascii.eqb a "&" then true else has_char "&" w).
  change (String.eqb (String a w) "&&")
    with (if Ascii.eqb a "&" then String.eqb w "&" else false).
  destruct (Ascii.eqb a "&"); [discriminate | reflexivity].
Qed.

Lemma uefi_hook_words (mp : Path) :
  has_char " " (PathOps.str mp) = false ->
  Sh.words (uefi_hook_command mp)
  = [ "/usr/bin/cp"; "/usr/share/limine/BOOTIA32.EFI";
      PathOps.str mp +:+ "/EFI/BOOT/"; "&&";
      "/usr/bin/cp"; "/usr/share/limine/BOOTX64.EFI";
      PathOps.str mp +:+ "/EFI/BOOT/" ].
Proof.
  intros Hmp.
  assert (has_char " " (PathOps.str mp +:+ "/EFI/BOOT/") = false) as Hd
    by (rewrite has_char_app, Hmp; reflexivity).
  assert (is_empty (PathOps.str mp +:+ "/EFI/BOOT/") = false) as Hne
    by (now apply is_empty_app_r).
  replace (uefi_hook_command mp)
    with ("/usr/bin/cp" +:+ String " "
           ("/usr/share/limine/BOOTIA32.EFI" +:+ String " "
             ((PathOps.str mp +:+ "/EFI/BOOT/") +:+ String " "
               ("&&" +:+ String " "
                 ("/usr/bin/cp" +:+ String " "
                   ("/usr/share/limine/BOOTX64.EFI" +:+ String " "
                     (PathOps.str mp +:+ "/EFI/BOOT/")))))))
    by (unfold uefi_hook_command; rewrite ?str_app_assoc; reflexivity).
  rewrite !words_cons by first [reflexivity | assumption].
  rewrite words_last by assumption. reflexivity.
Qed.

Lemma bios_hook_words (device : Path) :
  has_char " " (PathOps.str device) = false ->
  is_empty (PathOps.str device) = false ->
  Sh.words (bios_hook_command device)
  = [ "/usr/bin/limine"; "bios-install"; PathOps.str device; "&&";
      "/usr/bin/cp"; "/usr/share/limine/limine-bios.sys"; "/boot/" ].
Proof.
  intros Hd Hne.
  replace (bios_hook_command device)
    with ("/usr/bin/limine" +:+ String " "
           ("bios-install" +:+ String " "
             (PathOps.str device +:+ String " "
               ("&&" +:+ String " "
                 ("/usr/bin/cp" +:+ String " "
                   ("/usr/share/limine/limine-bios.sys" +:+ String " "
                     "/boot/"))))))
    by (unfold bios_hook_command; rewrite ?str_app_assoc; reflexivity).
  rewrite !words_cons by first [reflexivity | assumption].
  rewrite words_last by reflexivity. reflexivity.
Qed.

Lemma bios_install_words (self : Installer) (device : Path) :
  has_char " " (PathOps.str (target self)) = false ->
  is_empty (PathOps.str (target self)) = false ->
  has_char " " (PathOps.str device) = false ->
  is_empty (PathOps.str device) = false ->
  Sh.words (bios_install_cmd self device)
  = [ "/usr/bin/arch-chroot"; PathOps.str (target self);
      "limine"; "bios-install"; PathOps.str device ].
Proof.
  intros Ht Htne Hd Hdne.
  replace (bios_install_cmd self device)
    with ("/usr/bin/arch-chroot" +:+ String " "
           (PathOps.str (target self) +:+ String " "
             ("limine" +:+ String " "
               ("bios-install" +:+ String " " (PathOps.str device)))))
    by (unfold bios_install_cmd; rewrite ?str_app_assoc; reflexivity).
  rewrite !words_cons by first [reflexivity | assumption].
  rewrite words_last by assumption. reflexivity.
Qed.

(** ** Paths inside the target *)

Lemma walk_plain (acc xs : list string) :
  forallb Sh.not_parent xs = true -> Sh.walk acc xs = acc ++ xs.
Proof.
  revert acc. induction xs as [|x xs IH]; intros acc H.
  - now rewrite List.app_nil_r.
  - cbn [forallb] in H. apply andb_prop in H as [Hx Hxs].
    unfold Sh.not_parent in Hx. apply negb_true_iff in Hx.
    cbn [Sh.walk]. rewrite Hx, (IH _ Hxs), <- List.app_assoc. reflexivity.
Qed.

Lemma in_root_plain (root p : Path) :
  forallb Sh.not_parent (parts p) = true ->
  Sh.in_root root p = mkPath (anchored root) (parts root ++ parts p).
Proof. intros H. unfold Sh.in_root. now rewrite (walk_plain [] _ H). Qed.

(** Inside the root a leading [..] leads nowhere: [/../EFI/BOOT/] is the
    root's own [EFI/BOOT]. *)
Lemma in_root_parent_of_root :
  Sh.in_root Sample.mnt (Sh.parse_path "/../EFI/BOOT/")
  = Sample.mnt // "EFI" // "BOOT".
Proof. reflexivity. Qed.

Lemma plain_path_not_parent (p : Path) :
  Sh.plain_path p = true -> forallb Sh.not_parent (parts p) = true.
Proof.
  unfold Sh.plain_path. intros H.
  apply andb_prop in H as [_ H]. now apply andb_prop in H as [_ H].
Qed.

Lemma in_root_share (self : Installer) (file : string) :
  Sh.not_parent file = true ->
  Sh.in_root (target self) (mkPath true ["usr"; "share"; "limine"; file])
  = limine_path self // file.
Proof.
  intros Hf. rewrite in_root_plain.
  - unfold limine_path, PathOps.div. cbn [anchored parts].
    now rewrite <- !List.app_assoc.
  - cbn [parts forallb]. rewrite Hf. reflexivity.
Qed.

Lemma in_root_efi_boot (self : Installer) (mp : Path) :
  forallb Sh.not_parent (parts mp) = true ->
  Sh.in_root (target self) (mkPath true (parts mp ++ ["EFI"; "BOOT"]))
  = efi_dir_of self (mkPath false (parts mp)).
Proof.
  intros Hmp. rewrite in_root_plain.
  - unfold efi_dir_of, PathOps.div, PathOps.join.
    cbn [anchored parts]. now rewrite <- !List.app_assoc.
  - cbn [parts]. rewrite forallb_app, Hmp. reflexivity.
Qed.

(** ** Replaying the two hook commands *)

Lemma replay_uefi_hook (self : Installer) (efi : PartitionModification)
    (mp : Path) :
  anchored mp = true -> Sh.plain_path mp = true ->
  Sh.replay (target self) (uefi_hook_command mp)
  = Some (Sh.placements (uefi_events self efi mp)).
Proof.
  intros Ha Hp. unfold Sh.replay.
  pose proof (plain_path_str mp " " Hp blank_special) as Hblank.
  pose proof (plain_path_str mp "&" Hp ampersand_special) as Hamp.
  assert (PathOps.wf mp = true) as Hwf
    by (unfold Sh.plain_path in Hp; now apply andb_prop in Hp as [? _]).
  rewrite uefi_hook_words by exact Hblank.
  assert (String.eqb (PathOps.str mp +:+ "/EFI/BOOT/") "&&" = false) as Hd.
  { apply not_and_operator; [| now apply is_empty_app_r].
    rewrite has_char_app, Hamp. reflexivity. }
  cbn [Sh.and_list]. rewrite Hd.
  change (String.eqb "/usr/bin/cp" "&&") with false.
  change (String.eqb "/usr/share/limine/BOOTIA32.EFI" "&&") with false.
  change (String.eqb "/usr/share/limine/BOOTX64.EFI" "&&") with false.
  change (String.eqb "&&" "&&") with true.
  cbv iota.
  unfold Sh.run_all, Sh.run_simple.
  change (String.eqb "/usr/bin/cp" "/usr/bin/cp") with true.
  cbv iota. cbn [rev app map].
  rewrite (parse_efi_boot mp Ha Hwf).
  change (Sh.parse_path "/usr/share/limine/BOOTIA32.EFI")
    with (mkPath true ["usr"; "share"; "limine"; "BOOTIA32.EFI"]).
  change (Sh.parse_path "/usr/share/limine/BOOTX64.EFI")
    with (mkPath true ["usr"; "share"; "limine"; "BOOTX64.EFI"]).
  rewrite !in_root_share by reflexivity.
  rewrite in_root_efi_boot by exact (plain_path_not_parent mp Hp).
  reflexivity.
Qed.

Lemma replay_bios_hook (self : Installer) (device : Path) :
  Sh.plain_path (target self) = true -> Sh.plain_path device = true ->
  Sh.replay (target self) (bios_hook_command device)
  = Some (rev (Sh.placements (bios_events self device))).
Proof.
  intros Ht Hp. unfold Sh.replay.
  pose proof (plain_path_str device " " Hp blank_special) as Hblank.
  pose proof (plain_path_str device "&" Hp ampersand_special) as Hamp.
  pose proof (plain_path_str (target self) " " Ht blank_special) as Htb.
  assert (PathOps.wf device = true) as Hwf
    by (unfold Sh.plain_path in Hp; now apply andb_prop in Hp as [? _]).
  assert (PathOps.wf (target self) = true) as Hwft
    by (unfold Sh.plain_path in Ht; now apply andb_prop in Ht as [? _]).
  pose proof (str_not_empty device Hwf) as Hne.
  pose proof (str_not_empty (target self) Hwft) as Htne.
  rewrite bios_hook_words by assumption.
  pose proof (not_and_operator _ Hamp Hne) as Hd.
  cbn [Sh.and_list]. rewrite Hd.
  change (String.eqb "/usr/bin/limine" "&&") with false.
  change (String.eqb "bios-install" "&&") with false.
  change (String.eqb "/usr/bin/cp" "&&") with false.
  change (String.eqb "/usr/share/limine/limine-bios.sys" "&&") with false.
  change (String.eqb "/boot/" "&&") with false.
  change (String.eqb "&&" "&&") with true.
  cbv iota.
  unfold Sh.run_all, Sh.run_simple.
  change (String.eqb "/usr/bin/limine" "/usr/bin/cp") with false.
  change (String.eqb "/usr/bin/limine" "/usr/bin/limine") with true.
  change (String.eqb "bios-install" "bios-install") with true.
  change (String.eqb "/usr/bin/cp" "/usr/bin/cp") with true.
  cbv iota. cbn [orb rev app map].
  change (Sh.parse_path "/usr/share/limine/limine-bios.sys")
    with (mkPath true ["usr"; "share"; "limine"; "limine-bios.sys"]).
  change (Sh.parse_path "/boot/") with (mkPath true ["boot"]).
  rewrite in_root_share by reflexivity.
  change (Sh.in_root (target self) (mkPath true ["boot"]))
    with (target self // "boot").
  unfold Sh.placements, bios_events. cbn [flat_map Sh.placement_of].
  rewrite bios_install_words by assumption.
  unfold Sh.run_host, Sh.run_simple.
  change (String.eqb "/usr/bin/arch-chroot" "/usr/bin/arch-chroot")
    with true.
  change (String.eqb "limine" "/usr/bin/cp") with false.
  change (String.eqb "limine" "/usr/bin/limine") with false.
  change (String.eqb "limine" "limine") with true.
  change (String.eqb "bios-install" "bios-install") with true.
  cbv iota. cbn [orb rev app].
  rewrite (parse_str (target self) Hwft). reflexivity.
Qed.

End ShFacts.

Module HookFacts.
Import RunFacts.

Lemma placements_run_events self bp evs cmd params :
  Sh.placements (run_events self bp evs cmd params) = Sh.placements evs.
Proof.
  unfold Sh.placements, run_events.
  rewrite !flat_map_app. cbn [flat_map Sh.placement_of app].
  now rewrite List.app_nil_r.
Qed.

(** The hook file a successful run leaves. *)
Lemma hook_written env self bp efi_partition root st st' :
  _add_limine_bootloader env self bp efi_partition root st = (Ok tt, st') ->
  exists evs cmd params,
    deployed env self bp efi_partition evs cmd
    /\ hook_file self st' = Some (hook_contents cmd)
    /\ trace st' = trace st ++ run_events self bp evs cmd params.
Proof.
  intros H. apply run_ok in H as (evs & cmd & params & Hd & _ & ->).
  exists evs, cmd, params. split; [exact Hd |].
  split; [| apply trace_apply_events].
  unfold hook_file, run_events. rewrite !apply_events_app.
  cbn [apply_events fold_left apply_event files].
  rewrite lookup_insert_ne by apply ShFacts.file_names_differ.
  apply lookup_insert_eq.
Qed.

Lemma plain_path_no_newline (p : Path) :
  Sh.plain_path p = true -> Str.has_char "010" (PathOps.str p) = false.
Proof.
  intros Hp. exact (ShFacts.plain_path_str p _ Hp ShFacts.newline_special).
Qed.

End HookFacts.

(** C3 (amended).  When the paths the hook command prints (the EFI mount
    point in UEFI mode; the target and the resolved parent device in BIOS
    mode) are made of plain characters, without blanks, quotes or other
    characters the shell gives a meaning, and have no [..] component
    (which the installing host and the installed system resolve
    differently), the hook file of a successful run
    holds an [Exec] command whose replay inside the target does what the
    run did: in UEFI mode the same two copies into [EFI/BOOT], in the same
    order; in BIOS mode the same [bios-install] on the same device and the
    same copy of the stage-3 file, in the opposite order. *)
Theorem hook_replays_deployment env self bp efi_partition root st st' :
  Sh.plain_inputs env self bp efi_partition = true ->
  _add_limine_bootloader env self bp efi_partition root st = (Ok tt, st') ->
  exists text cmd events replayed,
    hook_file self st' = Some text
    /\ Sh.exec_command text = Some cmd
    /\ trace st' = trace st ++ events
    /\ Sh.replay (target self) cmd = Some replayed
    /\ length replayed = 2
    /\ replayed = if has_uefi env then Sh.placements events
                  else rev (Sh.placements events).
Proof.
  intros Hplain Hrun.
  apply HookFacts.hook_written in Hrun
    as (evs & cmd & params & Hd & Hfile & Htrace).
  exists (hook_contents cmd), cmd, (run_events self bp evs cmd params).
  unfold deployed in Hd. unfold Sh.plain_inputs in Hplain.
  rewrite HookFacts.placements_run_events.
  destruct (has_uefi env).
  - destruct Hd as (efi & mp & -> & Hmp & Ha & -> & ->).
    rewrite Hmp in Hplain.
    exists (Sh.placements (uefi_events self efi mp)).
    split; [exact Hfile |]. split.
    { apply ShFacts.exec_command_hook. unfold no_newline, uefi_hook_command.
      rewrite !StrFacts.has_char_app.
      now rewrite (HookFacts.plain_path_no_newline mp Hplain). }
    split; [exact Htrace |].
    split; [now apply ShFacts.replay_uefi_hook |].
    split; reflexivity.
  - destruct Hd as (device & Hres & -> & ->).
    rewrite Hres in Hplain. apply andb_prop in Hplain as [Ht Hdev].
    exists (rev (Sh.placements (bios_events self device))).
    split; [exact Hfile |]. split.
    { apply ShFacts.exec_command_hook. unfold no_newline, bios_hook_command.
      rewrite !StrFacts.has_char_app.
      now rewrite (HookFacts.plain_path_no_newline device Hdev). }
    split; [exact Htrace |].
    split; [now apply ShFacts.replay_bios_hook |].
    split; [| reflexivity].
    rewrite length_rev.
    unfold Sh.placements, bios_events. cbn [flat_map Sh.placement_of].
    rewrite ShFacts.bios_install_words;
      [ reflexivity
      | exact (ShFacts.plain_path_str _ _ Ht ShFacts.blank_special)
      | apply ShFacts.str_not_empty; unfold Sh.plain_path in Ht;
        now apply andb_prop in Ht as [? _]
      | exact (ShFacts.plain_path_str _ _ Hdev ShFacts.blank_special)
      | apply ShFacts.str_not_empty; unfold Sh.plain_path in Hdev;
        now apply andb_prop in Hdev as [? _] ].
Qed.

Lemma hook_replays_deployment_witness :
  exists text cmd events replayed,
    hook_file Sample.installer (snd Sample.bios_run) = Some text
    /\ Sh.exec_command text = Some cmd
    /\ trace (snd Sample.bios_run) = trace init_state ++ events
    /\ Sh.replay (target Sample.installer) cmd = Some replayed
    /\ length replayed = 2
    /\ replayed = rev (Sh.placements events).
Proof.
  apply (hook_replays_deployment (Sample.world false Sample.no_fault)
           Sample.installer Sample.boot None Sample.root init_state
           (snd Sample.bios_run));
    [reflexivity | vm_compute; reflexivity].
Defined.

(** C3, as stated, fails: with the EFI system partition mounted on
    [/my efi] the run succeeds and copies both stubs into
    [my efi/EFI/BOOT] under the target, but the shell splits the hook's
    command at the blank, so its replay copies into [efi/EFI/BOOT] and
    never into the directory the run used. *)
Lemma blank_mount_point_breaks_replay :
  exists text cmd replayed,
    fst Sample.blank_run = Ok tt
    /\ hook_file Sample.installer (snd Sample.blank_run) = Some text
    /\ Sh.exec_command text = Some cmd
    /\ Sh.words cmd
       = [ "/usr/bin/cp"; "/usr/share/limine/BOOTIA32.EFI"; "/my";
           "efi/EFI/BOOT/"; "&&";
           "/usr/bin/cp"; "/usr/share/limine/BOOTX64.EFI"; "/my";
           "efi/EFI/BOOT/" ]
    /\ Sh.replay (target Sample.installer) cmd = Some replayed
    /\ replayed <> Sh.placements (trace (snd Sample.blank_run))
    /\ In (Copied (Sample.mnt // "usr" // "share" // "limine" // "BOOTIA32.EFI")
                  (Sample.mnt // "my efi" // "EFI" // "BOOT"))
          (Sh.placements (trace (snd Sample.blank_run)))
    /\ ~ In (Copied (Sample.mnt // "usr" // "share" // "limine"
                       // "BOOTIA32.EFI")
                    (Sample.mnt // "my efi" // "EFI" // "BOOT"))
            replayed.
Proof.
  eexists. eexists. eexists.
  split; [vm_compute; reflexivity |].
  split; [vm_compute; reflexivity |].
  split; [vm_compute; reflexivity |].
  split; [vm_compute; reflexivity |].
  split; [vm_compute; reflexivity |].
  split; [vm_compute; discriminate |].
  split; [vm_compute; tauto |].
  vm_compute. intros H.
  repeat (destruct H as [H | H]; [discriminate H |]).
  exact H.
Qed.

(** * Further properties of the method *)

(** ** Assignments to a map *)

Module MapFacts.

(** A key holds what was last assigned to it, or what it held before. *)
Lemma lookup_assign_all k kvs (m : gmap string string) :
  assign_all kvs m !! k
  = match last_assigned k kvs with
    | Some v => Some v
    | None => m !! k
    end.
Proof.
  revert m. induction kvs as [|[k' v'] kvs IH]; intros m; [reflexivity |].
  change (assign_all ((k', v') :: kvs) m)
    with (assign_all kvs (<[k' := v']> m)).
  rewrite IH. simpl.
  destruct (last_assigned k kvs); [reflexivity |].
  destruct (String.eqb k' k) eqn:E.
  - apply String.eqb_eq in E. subst k'. apply lookup_insert_eq.
  - apply String.eqb_neq in E. now apply lookup_insert_ne.
Qed.

Lemma writes_app evs1 evs2 : writes (evs1 ++ evs2) = writes evs1 ++ writes evs2.
Proof. unfold writes. apply flat_map_app. Qed.

Lemma flag_sets_app evs1 evs2 :
  flag_sets (evs1 ++ evs2) = flag_sets evs1 ++ flag_sets evs2.
Proof. unfold flag_sets. apply flat_map_app. Qed.

Lemma files_after evs st :
  files (apply_events evs st) = assign_all (writes evs) (files st).
Proof.
  revert st. induction evs as [|ev evs IH]; intros st; [reflexivity |].
  change (apply_events (ev :: evs) st)
    with (apply_events evs (apply_event ev st)).
  rewrite IH. destruct ev; reflexivity.
Qed.

Lemma flags_after evs st :
  helper_flags (apply_events evs st)
  = assign_all (flag_sets evs) (helper_flags st).
Proof.
  revert st. induction evs as [|ev evs IH]; intros st; [reflexivity |].
  change (apply_events (ev :: evs) st)
    with (apply_events evs (apply_event ev st)).
  rewrite IH. destruct ev; reflexivity.
Qed.

Lemma writes_quiet evs :
  forallb (fun ev => negb (is_write ev)) evs = true -> writes evs = [].
Proof.
  induction evs as [|ev evs IH]; [reflexivity |].
  simpl. intros H. apply andb_prop in H as [Hev Hevs].
  unfold writes in *. simpl. rewrite (IH Hevs).
  destruct ev; try reflexivity; discriminate.
Qed.

Lemma flag_sets_quiet evs :
  forallb (fun ev => negb (is_setflag ev)) evs = true -> flag_sets evs = [].
Proof.
  induction evs as [|ev evs IH]; [reflexivity |].
  simpl. intros H. apply andb_prop in H as [Hev Hevs].
  unfold flag_sets in *. simpl. rewrite (IH Hevs).
  destruct ev; try reflexivity; discriminate.
Qed.

End MapFacts.

(** ** What a run writes *)

Module WriteFacts.
Import MapFacts.

Lemma deployed_writes env self bp efi_partition evs cmd :
  deployed env self bp efi_partition evs cmd ->
  writes evs = [] /\ flag_sets evs = [].
Proof.
  intros Hd. apply FinalFacts.deployed_quiet in Hd as [Hw Hf].
  split; [now apply writes_quiet | now apply flag_sets_quiet].
Qed.

End WriteFacts.

(** ** The calls of a run *)

Module BranchFacts.

Lemma efi_dir_eq (self : Installer) (mp : Path) :
  efi_dir_of self (mkPath false (parts mp)) = efi_boot_dir self mp.
Proof.
  unfold efi_dir_of, efi_boot_dir, PathOps.join, PathOps.div.
  cbn [anchored parts]. now rewrite <- !List.app_assoc.
Qed.

End BranchFacts.

Module CallFacts.

(** One goal for each element of a list given element by element. *)
Ltac each_call :=
  repeat match goal with
         | |- Forall _ (_ :: _) => constructor
         | |- Forall _ [] => constructor
         end.

Section WithRun.

Context (env : Env) (self : Installer) (bp : PartitionModification)
        (efi_partition : option PartitionModification).

Let expected := expected_call env self bp efi_partition.

Lemma prologue_expected : Forall expected (prologue bp).
Proof. unfold prologue. each_call; [exact I | reflexivity | exact I]. Qed.

Lemma uefi_events_expected efi mp :
  has_uefi env = true -> efi_partition = Some efi ->
  mountpoint efi = Some mp ->
  Forall expected (uefi_events self efi mp).
Proof.
  intros Hu He Hmp. unfold uefi_events. rewrite BranchFacts.efi_dir_eq.
  each_call.
  - exact I.
  - right. split; [exact Hu |]. exists efi, mp. now repeat split.
  - left. split; [exact Hu |]. split; [now left |].
    exists efi, mp. now repeat split.
  - left. split; [exact Hu |]. split; [now right |].
    exists efi, mp. now repeat split.
Qed.

Lemma bios_events_expected device :
  has_uefi env = false -> resolved_parent env bp = Ok device ->
  Forall expected (bios_events self device).
Proof.
  intros Hu Hres. unfold bios_events. each_call.
  - right. now repeat split.
  - split; [exact Hu |]. exists device. now split.
Qed.

Lemma deployed_expected evs cmd :
  deployed env self bp efi_partition evs cmd -> Forall expected evs.
Proof.
  unfold deployed. destruct (has_uefi env) eqn:Hu.
  - intros (efi & mp & He & Hmp & _ & -> & _).
    now apply uefi_events_expected.
  - intros (device & Hres & -> & _). now apply bios_events_expected.
Qed.

Lemma hook_steps_expected cmd :
  Forall expected
    [EMkdir (hooks_dir self); EWriteText (hook_path self) (hook_contents cmd)].
Proof. each_call; now left. Qed.

Lemma failure_expected root e evs :
  failure env self bp efi_partition root e evs -> Forall expected evs.
Proof.
  intros H. destruct H; rewrite ?Forall_app;
    repeat match goal with
           | |- _ /\ _ => split
           | |- Forall _ (prologue _) => apply prologue_expected
           | |- Forall _ (firstn _ _) => apply Forall_take
           | |- Forall _ (uefi_events _ _ _) =>
               now apply uefi_events_expected
           | |- Forall _ (bios_events _ _) => now apply bios_events_expected
           | |- Forall _ [EMkdir _; EWriteText _ _] =>
               apply hook_steps_expected
           | D : deployed _ _ _ _ ?evs _ |- Forall _ ?evs =>
               exact (deployed_expected _ _ D)
           end.
  - each_call. exact I.
  - each_call. now left.
Qed.

Lemma run_events_expected evs cmd params :
  deployed env self bp efi_partition evs cmd ->
  Forall expected (run_events self bp evs cmd params).
Proof.
  intros Hd. unfold run_events. rewrite !Forall_app.
  split; [apply prologue_expected |].
  split; [exact (deployed_expected _ _ Hd) |].
  each_call; [now left | now left | now right | now split].
Qed.

End WithRun.

End CallFacts.

(** X1.  Whatever the outcome and the firmware mode, every call a run has
    completed is one the method is written to make: a log message; the
    strap of [limine]; the creation of the pacman hooks directory or, in
    UEFI mode, of [EFI/BOOT] under the EFI mount point; in UEFI mode a copy
    of one of the two stubs from the limine share directory into that
    [EFI/BOOT]; in BIOS mode the copy of [limine-bios.sys] into [boot] and
    [limine bios-install] on the resolved parent device; [write_text] on
    the hook file or the boot-menu file; the assignment of ["limine"] to
    the ["bootloader"] flag.  So the method calls [write_text] on no other
    path and assigns no other flag. *)
Theorem calls_within_inventory env self bp efi_partition root st r st' :
  _add_limine_bootloader env self bp efi_partition root st = (r, st') ->
  exists events,
    trace st' = trace st ++ events
    /\ Forall (expected_call env self bp efi_partition) events.
Proof.
  intros Hrun. destruct r as [[]|e].
  - apply RunFacts.run_ok in Hrun as (evs & cmd & params & Hd & _ & ->).
    exists (run_events self bp evs cmd params).
    split; [apply RunFacts.trace_apply_events |].
    now apply CallFacts.run_events_expected.
  - apply RunFacts.run_raise in Hrun as (evs & Hf & ->).
    exists evs. split; [apply RunFacts.trace_apply_events |].
    exact (CallFacts.failure_expected _ _ _ _ _ _ _ Hf).
Qed.

Lemma calls_within_inventory_witness :
  exists events,
    trace (snd Sample.bios_run) = trace init_state ++ events
    /\ Forall (expected_call (Sample.world false Sample.no_fault)
                 Sample.installer Sample.boot None) events.
Proof.
  apply (calls_within_inventory (Sample.world false Sample.no_fault)
           Sample.installer Sample.boot None Sample.root init_state
           (Ok tt) (snd Sample.bios_run)).
  vm_compute; reflexivity.
Defined.

(** ** Runs that stop half way *)

Module StepFacts.

(** The firmware branch succeeds when it can be deployed and none of its
    calls fails. *)
Lemma deploy_succeeds env self bp efi_partition evs cmd st :
  deployed env self bp efi_partition evs cmd ->
  (forall ev, In ev evs -> fault env ev = None) ->
  deploy env self bp efi_partition st = (Ok cmd, apply_events evs st).
Proof.
  unfold deployed, deploy, deploy_uefi, deploy_bios, resolved_parent.
  intros Hd Hf. destruct (has_uefi env).
  - destruct Hd as (efi & mp & -> & Hmp & Ha & -> & ->).
    unfold uefi_events in Hf. unfold for_each.
    unfold bind, perform, call, lift, try_except, ret,
      PathOps.relative_to_root.
    rewrite Hmp, Ha.
    repeat match goal with
           | |- context [fault _ ?ev] =>
               rewrite (Hf ev) by (simpl; tauto)
           end.
    reflexivity.
  - destruct Hd as (dev & Hres & -> & ->).
    unfold bios_events in Hf.
    unfold bind, perform, call, lift, try_except, ret.
    destruct (safe_dev_path env bp) as [d|]; [| discriminate].
    destruct (get_parent_device_path env d) as [parent|]; [| discriminate].
    destruct (get_unique_path_for_device env parent) as [[u|]|];
      [| | discriminate]; inversion Hres; subst dev.
    all: repeat match goal with
                | |- context [fault _ ?ev] =>
                    rewrite (Hf ev) by (simpl; tauto)
                end.
    all: reflexivity.
Qed.

End StepFacts.

(** X3.  When the firmware branch and the writing of the hook succeed but
    the kernel parameters cannot be derived, the run fails with that very
    error after the hook file has been written: the hook stays behind,
    while the boot-menu file and the helper flags are as before. *)
Theorem hook_left_behind env self bp efi_partition root st evs cmd e :
  deployed env self bp efi_partition evs cmd ->
  (forall ev,
     In ev (prologue bp ++ evs
              ++ [ EMkdir (hooks_dir self);
                   EWriteText (hook_path self) (hook_contents cmd) ]) ->
     fault env ev = None) ->
  _get_kernel_params env root = Raise e ->
  exists st',
    _add_limine_bootloader env self bp efi_partition root st = (Raise e, st')
    /\ hook_file self st' = Some (hook_contents cmd)
    /\ config_file self st' = config_file self st
    /\ helper_flags st' = helper_flags st.
Proof.
  intros Hd Hf Hp.
  exists (apply_events
            (prologue bp ++ evs
               ++ [ EMkdir (hooks_dir self);
                    EWriteText (hook_path self) (hook_contents cmd) ]) st).
  pose proof (WriteFacts.deployed_writes _ _ _ _ _ _ Hd) as [Hw Hfl].
  split; [| split; [| split]].
  - unfold _add_limine_bootloader, bind, perform, call, lift.
    rewrite (Hf (EStrap "limine")) by (simpl; tauto).
    rewrite (StepFacts.deploy_succeeds env self bp efi_partition evs cmd)
      by (try exact Hd; intros ev Hev; apply Hf;
          apply in_or_app; right; apply in_or_app; now left).
    rewrite (Hf (EMkdir (hooks_dir self)))
      by (apply in_or_app; right; apply in_or_app; right; simpl; tauto).
    rewrite (Hf (EWriteText (hook_path self) (hook_contents cmd)))
      by (apply in_or_app; right; apply in_or_app; right; simpl; tauto).
    rewrite Hp. rewrite !RunFacts.apply_events_app. reflexivity.
  - unfold hook_file.
    rewrite MapFacts.files_after, !MapFacts.writes_app, Hw.
    rewrite MapFacts.lookup_assign_all.
    cbn [writes flat_map app prologue last_assigned fst snd].
    now rewrite String.eqb_refl.
  - unfold config_file.
    rewrite MapFacts.files_after, !MapFacts.writes_app, Hw.
    rewrite MapFacts.lookup_assign_all.
    cbn [writes flat_map app prologue last_assigned fst snd].
    pose proof (ShFacts.file_names_differ self) as Hne.
    apply not_eq_sym, String.eqb_neq in Hne. now rewrite Hne.
  - rewrite MapFacts.flags_after, !MapFacts.flag_sets_app, Hfl.
    reflexivity.
Qed.

Lemma hook_left_behind_witness :
  exists st',
    _add_limine_bootloader (Cases.no_params_world false) Sample.installer
      Sample.boot None Sample.root init_state
    = (Raise (ValueError "Could not determine the root partition"), st')
    /\ hook_file Sample.installer st'
       = Some (hook_contents
                 (bios_hook_command
                    (mkPath true ["dev"; "disk"; "by-id"; "ata-DISK0"])))
    /\ config_file Sample.installer st' = config_file Sample.installer init_state
    /\ helper_flags st' = helper_flags init_state.
Proof.
  apply (hook_left_behind (Cases.no_params_world false) Sample.installer
           Sample.boot None Sample.root init_state
           (bios_events Sample.installer
              (mkPath true ["dev"; "disk"; "by-id"; "ata-DISK0"]))).
  - exists (mkPath true ["dev"; "disk"; "by-id"; "ata-DISK0"]).
    repeat split.
  - intros ev _. reflexivity.
  - reflexivity.
Defined.

(** ** The steps of the two firmware branches *)

(** X5.  In UEFI mode a successful run has created [EFI/BOOT] under the
    EFI mount point inside the target and then copied [BOOTIA32.EFI] and
    [BOOTX64.EFI], in this order, from the limine share directory into it.
    These, the strap, the hook directory and the two text files are all it
    changed in the target, in that order; it ran no command. *)
Theorem uefi_deployment env self bp efi_partition root st st' :
  has_uefi env = true ->
  _add_limine_bootloader env self bp efi_partition root st = (Ok tt, st') ->
  exists efi mp events hook_text menu_text,
    efi_partition = Some efi /\ mountpoint efi = Some mp
    /\ anchored mp = true
    /\ trace st' = trace st ++ events
    /\ List.filter mutates_target events
       = [ EStrap "limine";
           EMkdir (efi_boot_dir self mp);
           ECopy (target self // "usr" // "share" // "limine"
                    // "BOOTIA32.EFI") (efi_boot_dir self mp);
           ECopy (target self // "usr" // "share" // "limine"
                    // "BOOTX64.EFI") (efi_boot_dir self mp);
           EMkdir (target self // "etc" // "pacman.d" // "hooks");
           EWriteText (hook_path self) hook_text;
           EWriteText (config_path self) menu_text ]
    /\ List.filter is_syscommand events = [].
Proof.
  intros Hfw Hrun.
  apply RunFacts.run_ok in Hrun as (evs & cmd & params & Hd & _ & ->).
  unfold deployed in Hd. rewrite Hfw in Hd.
  destruct Hd as (efi & mp & Hefi & Hmp & Ha & -> & ->).
  exists efi, mp. eexists. eexists. eexists.
  split; [exact Hefi |]. split; [exact Hmp |]. split; [exact Ha |].
  split; [apply RunFacts.trace_apply_events |].
  unfold run_events, uefi_events. rewrite BranchFacts.efi_dir_eq.
  split; reflexivity.
Qed.

Lemma uefi_deployment_witness :
  exists efi mp events hook_text menu_text,
    Some Sample.boot = Some efi /\ mountpoint efi = Some mp
    /\ anchored mp = true
    /\ trace (snd Sample.uefi_run) = trace init_state ++ events
    /\ List.filter mutates_target events
       = [ EStrap "limine";
           EMkdir (efi_boot_dir Sample.installer mp);
           ECopy (target Sample.installer // "usr" // "share" // "limine"
                    // "BOOTIA32.EFI") (efi_boot_dir Sample.installer mp);
           ECopy (target Sample.installer // "usr" // "share" // "limine"
                    // "BOOTX64.EFI") (efi_boot_dir Sample.installer mp);
           EMkdir (target Sample.installer // "etc" // "pacman.d" // "hooks");
           EWriteText (hook_path Sample.installer) hook_text;
           EWriteText (config_path Sample.installer) menu_text ]
    /\ List.filter is_syscommand events = [].
Proof.
  apply (uefi_deployment (Sample.world true Sample.no_fault)
           Sample.installer Sample.boot (Some Sample.boot) Sample.root
           init_state (snd Sample.uefi_run));
    [reflexivity | vm_compute; reflexivity].
Defined.

(** X6.  In UEFI mode an EFI partition whose mount point is a relative
    path passes both guards, but [relative_to('/')] then fails inside the
    try block: the run raises a DiskError that quotes the target, the mount
    point and pathlib's message, and nothing has been created or copied. *)
Theorem relative_mount_point_rejected env self bp efi mp root st :
  has_uefi env = true ->
  mountpoint efi = Some mp ->
  anchored mp = false ->
  fault env (EStrap "limine") = None ->
  exists st' events,
    _add_limine_bootloader env self bp (Some efi) root st
    = (Raise (DiskError ("Failed to install Limine in "
                           +:+ PathOps.str (target self) +:+ PathOps.str mp
                           +:+ ": " +:+ relative_to_msg env mp)), st')
    /\ trace st' = trace st ++ events
    /\ List.filter mutates_target events = [EStrap "limine"]
    /\ files st' = files st.
Proof.
  intros Hfw Hmp Ha Hstrap.
  eexists.
  exists (prologue bp
            ++ [ELog "info" ("Limine EFI partition: "
                               +:+ PathOps.str_opt (dev_path efi))]).
  split; [| split; [| split]].
  - unfold _add_limine_bootloader, deploy, deploy_uefi,
      PathOps.relative_to_root.
    unfold bind, perform, call, lift, try_except, raise.
    rewrite Hfw, Hmp, Ha, Hstrap. reflexivity.
  - cbn [trace apply_event]. unfold prologue.
    rewrite <- !List.app_assoc. reflexivity.
  - reflexivity.
  - reflexivity.
Qed.

Lemma relative_mount_point_rejected_witness :
  exists st' events,
    _add_limine_bootloader (Sample.world true Sample.no_fault)
      Sample.installer Sample.boot (Some Cases.relative_esp) Sample.root
      init_state
    = (Raise (DiskError ("Failed to install Limine in "
                           +:+ "/mnt/archinstall" +:+ "boot"
                           +:+ ": " +:+ "'boot' is not in the subpath of '/'")),
       st')
    /\ trace st' = trace init_state ++ events
    /\ List.filter mutates_target events = [EStrap "limine"]
    /\ files st' = files init_state.
Proof.
  apply (relative_mount_point_rejected (Sample.world true Sample.no_fault)
           Sample.installer Sample.boot Cases.relative_esp
           (mkPath false ["boot"]) Sample.root init_state);
    reflexivity.
Defined.

(** X7.  The two stubs are copied in a loop that stops at the first
    failure: when the copy of [BOOTIA32.EFI] fails, [BOOTX64.EFI] is never
    copied, the failure is reported as a DiskError, and neither the hook
    nor the boot-menu file is written. *)
Theorem stub_copies_stop_at_first_failure env self bp efi mp root st cause :
  has_uefi env = true ->
  mountpoint efi = Some mp ->
  anchored mp = true ->
  fault env (EStrap "limine") = None ->
  fault env (EMkdir (efi_boot_dir self mp)) = None ->
  fault env (ECopy (limine_path self // "BOOTIA32.EFI")
                   (efi_boot_dir self mp)) = Some cause ->
  exists st' events,
    _add_limine_bootloader env self bp (Some efi) root st
    = (Raise (DiskError ("Failed to install Limine in "
                           +:+ PathOps.str (target self) +:+ PathOps.str mp
                           +:+ ": " +:+ exn_str cause)), st')
    /\ trace st' = trace st ++ events
    /\ List.filter mutates_target events
       = [EStrap "limine"; EMkdir (efi_boot_dir self mp)]
    /\ files st' = files st.
Proof.
  intros Hfw Hmp Ha Hstrap Hmk Hcp.
  eexists.
  exists (prologue bp
            ++ [ ELog "info" ("Limine EFI partition: "
                                +:+ PathOps.str_opt (dev_path efi));
                 EMkdir (efi_boot_dir self mp) ]).
  split; [| split; [| split]].
  - unfold _add_limine_bootloader, deploy, deploy_uefi,
      PathOps.relative_to_root, for_each.
    unfold bind, perform, call, lift, try_except, raise.
    rewrite Hfw, Hmp, Ha, Hstrap, BranchFacts.efi_dir_eq, Hmk, Hcp.
    reflexivity.
  - cbn [trace apply_event]. unfold prologue.
    rewrite <- !List.app_assoc. reflexivity.
  - reflexivity.
  - reflexivity.
Qed.

Lemma stub_copies_stop_at_first_failure_witness :
  exists st' events,
    _add_limine_bootloader (Sample.world true Cases.first_stub_fails)
      Sample.installer Sample.boot (Some Sample.boot) Sample.root init_state
    = (Raise (DiskError ("Failed to install Limine in "
                           +:+ "/mnt/archinstall" +:+ "/boot"
                           +:+ ": " +:+ "[Errno 5] Input/output error")), st')
    /\ trace st' = trace init_state ++ events
    /\ List.filter mutates_target events
       = [ EStrap "limine";
           EMkdir (efi_boot_dir Sample.installer (mkPath true ["boot"])) ]
    /\ files st' = files init_state.
Proof.
  apply (stub_copies_stop_at_first_failure
           (Sample.world true Cases.first_stub_fails)
           Sample.installer Sample.boot Sample.boot (mkPath true ["boot"])
           Sample.root init_state Cases.io_error);
    reflexivity.
Defined.

(** X8.  In BIOS mode the stage-3 file is copied before the disk is
    touched: when the copy of [limine-bios.sys] fails, [limine
    bios-install] is never run, and the failure is a DiskError naming the
    resolved device. *)
Theorem bios_install_needs_stage3 env self bp efi_partition root st
    device cause :
  has_uefi env = false ->
  resolved_parent env bp = Ok device ->
  fault env (EStrap "limine") = None ->
  fault env (ECopy (limine_path self // "limine-bios.sys")
                   (target self // "boot")) = Some cause ->
  exists st' events,
    _add_limine_bootloader env self bp efi_partition root st
    = (Raise (DiskError ("Failed to install Limine on "
                           +:+ PathOps.str device
                           +:+ ": " +:+ exn_str cause)), st')
    /\ trace st' = trace st ++ events
    /\ List.filter mutates_target events = [EStrap "limine"]
    /\ files st' = files st.
Proof.
  intros Hfw Hres Hstrap Hcp.
  eexists. exists (prologue bp).
  split; [| split; [| split]].
  - unfold _add_limine_bootloader, deploy, deploy_bios.
    unfold bind, perform, call, lift, try_except, raise.
    unfold resolved_parent in Hres.
    rewrite Hfw, Hstrap.
    destruct (safe_dev_path env bp) as [d|]; [| discriminate].
    destruct (get_parent_device_path env d) as [parent|]; [| discriminate].
    destruct (get_unique_path_for_device env parent) as [[u|]|];
      [| | discriminate]; inversion Hres; subst device;
      rewrite Hcp; reflexivity.
  - cbn [trace apply_event]. unfold prologue.
    rewrite <- !List.app_assoc. reflexivity.
  - reflexivity.
  - reflexivity.
Qed.

Lemma bios_install_needs_stage3_witness :
  exists st' events,
    _add_limine_bootloader (Sample.world false Sample.copy_fails)
      Sample.installer Sample.boot None Sample.root init_state
    = (Raise (DiskError ("Failed to install Limine on "
                           +:+ "/dev/disk/by-id/ata-DISK0"
                           +:+ ": " +:+ "[Errno 28] No space left on device")),
       st')
    /\ trace st' = trace init_state ++ events
    /\ List.filter mutates_target events = [EStrap "limine"]
    /\ files st' = files init_state.
Proof.
  apply (bios_install_needs_stage3 (Sample.world false Sample.copy_fails)
           Sample.installer Sample.boot None Sample.root init_state
           (mkPath true ["dev"; "disk"; "by-id"; "ata-DISK0"])
           (ExternalError "OSError" "[Errno 28] No space left on device"));
    reflexivity.
Defined.

(** X9.  In BIOS mode, when [limine bios-install] fails, the stage-3 file
    has already been copied into the target's [boot] directory; the run
    raises a DiskError naming the resolved device and writes neither the
    hook nor the boot-menu file. *)
Theorem bios_install_failure_leaves_stage3 env self bp efi_partition root st
    device cause :
  has_uefi env = false ->
  resolved_parent env bp = Ok device ->
  fault env (EStrap "limine") = None ->
  fault env (ECopy (limine_path self // "limine-bios.sys")
                   (target self // "boot")) = None ->
  fault env (ESysCommand (bios_install_cmd self device)) = Some cause ->
  exists st' events,
    _add_limine_bootloader env self bp efi_partition root st
    = (Raise (DiskError ("Failed to install Limine on "
                           +:+ PathOps.str device
                           +:+ ": " +:+ exn_str cause)), st')
    /\ trace st' = trace st ++ events
    /\ List.filter mutates_target events
       = [ EStrap "limine";
           ECopy (target self // "usr" // "share" // "limine"
                    // "limine-bios.sys") (target self // "boot") ]
    /\ files st' = files st.
Proof.
  intros Hfw Hres Hstrap Hcp Hcmd.
  eexists.
  exists (prologue bp
            ++ [ECopy (limine_path self // "limine-bios.sys")
                      (target self // "boot")]).
  split; [| split; [| split]].
  - unfold _add_limine_bootloader, deploy, deploy_bios.
    unfold bind, perform, call, lift, try_except, raise.
    unfold resolved_parent in Hres.
    rewrite Hfw, Hstrap.
    destruct (safe_dev_path env bp) as [d|]; [| discriminate].
    destruct (get_parent_device_path env d) as [parent|]; [| discriminate].
    destruct (get_unique_path_for_device env parent) as [[u|]|];
      [| | discriminate]; inversion Hres; subst device;
      rewrite Hcp, Hcmd; reflexivity.
  - cbn [trace apply_event]. unfold prologue.
    rewrite <- !List.app_assoc. reflexivity.
  - reflexivity.
  - reflexivity.
Qed.

Lemma bios_install_failure_leaves_stage3_witness :
  exists st' events,
    _add_limine_bootloader (Sample.world false Cases.bios_install_fails)
      Sample.installer Sample.boot None Sample.root init_state
    = (Raise (DiskError ("Failed to install Limine on "
                           +:+ "/dev/disk/by-id/ata-DISK0"
                           +:+ ": " +:+ "exit code 1")), st')
    /\ trace st' = trace init_state ++ events
    /\ List.filter mutates_target events
       = [ EStrap "limine";
           ECopy (target Sample.installer // "usr" // "share" // "limine"
                    // "limine-bios.sys") (target Sample.installer // "boot") ]
    /\ files st' = files init_state.
Proof.
  apply (bios_install_failure_leaves_stage3
           (Sample.world false Cases.bios_install_fails)
           Sample.installer Sample.boot None Sample.root init_state
           (mkPath true ["dev"; "disk"; "by-id"; "ata-DISK0"])
           (ExternalError "SysCallError" "exit code 1"));
    reflexivity.
Defined.

(** * Further properties of the boot-menu file *)

Module MenuFacts.

Lemma fields_expected_stanzas ks p :
  map stanza_fields (expected_stanzas ks p) = flat_map kernel_fields ks.
Proof.
  unfold expected_stanzas.
  induction ks as [|k ks IH]; [reflexivity |].
  change (map stanza_fields
            (stanza_lines k "" p :: stanza_lines k "fallback" p
               :: flat_map (fun kernel =>
                    map (fun variant => stanza_lines kernel variant p)
                        variants) ks)
          = kernel_fields k ++ flat_map kernel_fields ks).
  rewrite !map_cons, IH. reflexivity.
Qed.

Lemma size_expected_stanzas ks p :
  Forall (fun st => length st = 5) (expected_stanzas ks p).
Proof.
  unfold expected_stanzas.
  induction ks as [|k ks IH]; [constructor |].
  change (Forall (fun st => length st = 5)
            (stanza_lines k "" p :: stanza_lines k "fallback" p
               :: flat_map (fun kernel =>
                    map (fun variant => stanza_lines kernel variant p)
                        variants) ks)).
  constructor; [reflexivity |]. constructor; [reflexivity | exact IH].
Qed.

End MenuFacts.

(** X10.  For every kernel list the boot-menu file holds, kernel by kernel
    in the order given, a primary and then a fallback stanza of five lines
    each: the label, [PROTOCOL=linux], the kernel image [vmlinuz-<kernel>]
    and the module [initramfs-<kernel>.img], respectively
    [initramfs-<kernel>fallback.img], the variant following the kernel
    name without a separator. *)
Theorem boot_menu_lists_every_kernel env self bp efi_partition root st st'
    params :
  forallb no_newline (kernels self) = true ->
  _get_kernel_params env root = Ok params ->
  forallb no_newline params = true ->
  _add_limine_bootloader env self bp efi_partition root st = (Ok tt, st') ->
  exists text,
    config_file self st' = Some text
    /\ map stanza_fields (stanzas text)
       = flat_map kernel_fields (kernels self)
    /\ Forall (fun stanza => length stanza = 5) (stanzas text).
Proof.
  intros Hks Hp Hps Hrun.
  destruct (FinalFacts.config_stanzas env self bp efi_partition root st st'
              params Hp Hks Hps Hrun) as (text & Hfile & _ & Hst).
  exists text. split; [exact Hfile |]. rewrite Hst.
  split; [apply MenuFacts.fields_expected_stanzas
         | apply MenuFacts.size_expected_stanzas].
Qed.

Lemma boot_menu_lists_every_kernel_witness :
  exists text,
    config_file Sample.installer2 (snd Sample.uefi_run2) = Some text
    /\ map stanza_fields (stanzas text)
       = flat_map kernel_fields ["linux-zen"; "linux-lts"]
    /\ Forall (fun stanza => length stanza = 5) (stanzas text).
Proof.
  apply (boot_menu_lists_every_kernel (Sample.world true Sample.no_fault)
           Sample.installer2 Sample.boot (Some Sample.boot) Sample.root
           init_state (snd Sample.uefi_run2) Sample.params);
    [reflexivity | reflexivity | reflexivity | vm_compute; reflexivity].
Defined.

(** X11.  With an empty kernel list the run still succeeds in writing a
    boot-menu file; it holds the timeout line and nothing else, so the
    menu has no entry to boot. *)
Theorem no_kernels_no_stanzas env self bp efi_partition root st st' :
  kernels self = [] ->
  _add_limine_bootloader env self bp efi_partition root st = (Ok tt, st') ->
  config_file self st' = Some ("TIMEOUT=5" +:+ Str.nl)
  /\ stanzas ("TIMEOUT=5" +:+ Str.nl) = [].
Proof.
  intros Hks Hrun.
  apply FinalFacts.config_written in Hrun as (params & _ & Hfile).
  rewrite Hks in Hfile. split; [exact Hfile | reflexivity].
Qed.

Lemma no_kernels_no_stanzas_witness :
  config_file Cases.no_kernels
    (snd (_add_limine_bootloader (Sample.world false Sample.no_fault)
            Cases.no_kernels Sample.boot None Sample.root init_state))
  = Some ("TIMEOUT=5" +:+ Str.nl)
  /\ stanzas ("TIMEOUT=5" +:+ Str.nl) = [].
Proof.
  apply (no_kernels_no_stanzas (Sample.world false Sample.no_fault)
           Cases.no_kernels Sample.boot None Sample.root init_state);
    [reflexivity | vm_compute; reflexivity].
Defined.

(** X12.  The boot-menu text depends on the kernel list and the kernel
    parameters only: two successful runs with the same kernels and the same
    parameters write the same text, whatever the firmware mode, the
    partitions and the target are. *)
Theorem boot_menu_ignores_firmware env1 env2 self1 self2 bp1 bp2 efi1 efi2
    root1 root2 st1 st2 st1' st2' :
  kernels self1 = kernels self2 ->
  _get_kernel_params env1 root1 = _get_kernel_params env2 root2 ->
  _add_limine_bootloader env1 self1 bp1 efi1 root1 st1 = (Ok tt, st1') ->
  _add_limine_bootloader env2 self2 bp2 efi2 root2 st2 = (Ok tt, st2') ->
  exists text,
    config_file self1 st1' = Some text /\ config_file self2 st2' = Some text.
Proof.
  intros Hks Hp Hrun1 Hrun2.
  apply FinalFacts.config_written in Hrun1 as (p1 & Hp1 & Hfile1).
  apply FinalFacts.config_written in Hrun2 as (p2 & Hp2 & Hfile2).
  rewrite Hp, Hp2 in Hp1. inversion Hp1; subst p2.
  rewrite <- Hks in Hfile2. eauto.
Qed.

Lemma boot_menu_ignores_firmware_witness :
  exists text,
    config_file Sample.installer (snd Sample.uefi_run) = Some text
    /\ config_file Sample.installer (snd Sample.bios_run) = Some text.
Proof.
  apply (boot_menu_ignores_firmware
           (Sample.world true Sample.no_fault)
           (Sample.world false Sample.no_fault)
           Sample.installer Sample.installer Sample.boot Sample.boot
           (Some Sample.boot) None Sample.root Sample.root
           init_state init_state (snd Sample.uefi_run) (snd Sample.bios_run));
    [reflexivity | reflexivity | vm_compute; reflexivity
    | vm_compute; reflexivity].
Defined.

(** * The package and configuration steps of [perform_installation] *)

Module PyFileFacts.
Import Str StrFacts PyFile.

Lemma universal_newlines_unix (s : string) :
  has_char "013" s = false -> universal_newlines s = s.
Proof.
  induction s as [|c s IH]; [reflexivity |].
  change (has_char "013" (String c s))
    with (if Ascii.eqb c "013" then true else has_char "013" s).
  change (universal_newlines (String c s))
    with (if Ascii.eqb c "013" then
            String "010"
              match s with
              | String d rest' =>
                  if Ascii.eqb d "010" then universal_newlines rest'
                  else universal_newlines s
              | EmptyString => EmptyString
              end
          else String c (universal_newlines s)).
  destruct (Ascii.eqb c "013"); [discriminate |].
  intros H. now rewrite (IH H).
Qed.

Lemma universal_newlines_no_cr_aux (s : string) :
  has_char "013" (universal_newlines s) = false
  /\ forall c, has_char "013" (universal_newlines (String c s)) = false.
Proof.
  induction s as [|d s [IH1 IH2]].
  - split; [reflexivity |].
    intros c. simpl. destruct (Ascii.eqb c "013") eqn:E; [reflexivity |].
    simpl. now rewrite E.
  - split; [apply IH2 |].
    intros c.
    change (universal_newlines (String c (String d s)))
      with (if Ascii.eqb c "013" then
              String "010"
                (if Ascii.eqb d "010" then universal_newlines s
                 else universal_newlines (String d s))
            else String c (universal_newlines (String d s))).
    destruct (Ascii.eqb c "013") eqn:E.
    + change (has_char "013" (String "010" ?x)) with (has_char "013" x).
      destruct (Ascii.eqb d "010"); [exact IH1 | apply IH2].
    + change (has_char "013"
                (String c (universal_newlines (String d s))))
        with (if Ascii.eqb c "013" then true
              else has_char "013" (universal_newlines (String d s))).
      rewrite E. apply IH2.
Qed.

(** Text read in text mode holds no carriage return. *)
Lemma universal_newlines_no_cr (s : string) :
  has_char "013" (universal_newlines s) = false.
Proof. apply universal_newlines_no_cr_aux. Qed.

Lemma concat_cons (x : string) (ls : list string) :
  String.concat "" (x :: ls) = x +:+ String.concat "" ls.
Proof.
  destruct ls as [|y ls]; simpl; [now rewrite str_app_nil_r | reflexivity].
Qed.

Lemma writelines_app (a b : list string) :
  writelines (a ++ b) = writelines a +:+ writelines b.
Proof.
  unfold writelines. induction a as [|x a IH]; [reflexivity |].
  change ((x :: a) ++ b) with (x :: (a ++ b)).
  now rewrite !concat_cons, IH, str_app_assoc.
Qed.

(** [writelines] undoes [readlines]. *)
Lemma writelines_readlines (s : string) : writelines (readlines s) = s.
Proof.
  unfold writelines. induction s as [|c s IH]; [reflexivity |].
  change (readlines (String c s))
    with (if Ascii.eqb c "010" then String c EmptyString :: readlines s
          else match readlines s with
               | [] => [String c EmptyString]
               | l :: ls => String c l :: ls
               end).
  destruct (Ascii.eqb c "010").
  - rewrite concat_cons, IH. reflexivity.
  - destruct (readlines s) as [|l ls].
    + simpl in IH. subst s. reflexivity.
    + rewrite concat_cons in *. rewrite <- IH. reflexivity.
Qed.

Lemma split_on_some c (s : string) : split_on c s <> [].
Proof.
  induction s as [|a s IH]; simpl; [discriminate |].
  destruct (Ascii.eqb a c); [discriminate |].
  destruct (split_on c s); [contradiction | discriminate].
Qed.

(** Splitting at a separator splits both sides of it. *)
Lemma split_on_app_sep c (a b : string) :
  split_on c (a +:+ String c b) = split_on c a ++ split_on c b.
Proof.
  induction a as [|x a IH].
  - simpl. now rewrite Ascii.eqb_refl.
  - change (split_on c (String x a +:+ String c b))
      with (if Ascii.eqb x c then EmptyString :: split_on c (a +:+ String c b)
            else match split_on c (a +:+ String c b) with
                 | [] => [String x EmptyString]
                 | w :: ws => String x w :: ws
                 end).
    change (split_on c (String x a))
      with (if Ascii.eqb x c then EmptyString :: split_on c a
            else match split_on c a with
                 | [] => [String x EmptyString]
                 | w :: ws => String x w :: ws
                 end).
    rewrite IH. destruct (Ascii.eqb x c); [reflexivity |].
    pose proof (split_on_some c a) as Hne.
    destruct (split_on c a); [contradiction | reflexivity].
Qed.

Lemma pacman_conf_text (content : string) :
  pacman_conf_step content
  = universal_newlines content +:+ repo_entry +:+ repo_entry2.
Proof.
  unfold pacman_conf_step. cbv zeta.
  rewrite !writelines_app, writelines_readlines, str_app_assoc.
  reflexivity.
Qed.

Lemma sudoers_text (content : string) :
  sudoers_step content = universal_newlines content +:+ wheel_entry.
Proof.
  unfold sudoers_step. cbv zeta.
  rewrite !writelines_app, writelines_readlines. reflexivity.
Qed.

Lemma pacman_conf_lines_of (text : string) :
  lines (text +:+ repo_entry +:+ repo_entry2)
  = lines text
      ++ [ "[polaris]";
           "Server = https://polaris-linux-distro.github.io/pacman-repo/repo";
           "SigLevel = Optional TrustAll"; "";
           "[chaotic-aur]"; "Include = /etc/pacman.d/chaotic-mirrorlist";
           "" ].
Proof.
  unfold lines.
  change (repo_entry +:+ repo_entry2)
    with (String "010" (repo_entry_tail)).
  rewrite split_on_app_sep. reflexivity.
Qed.

(** On a text without carriage returns the step appends the two entries. *)
Lemma pacman_conf_unix (content : string) :
  unix_text content = true ->
  pacman_conf_step content = content +:+ repo_entry +:+ repo_entry2.
Proof.
  unfold unix_text. intros H. apply negb_true_iff in H.
  now rewrite pacman_conf_text, (universal_newlines_unix content H).
Qed.

End PyFileFacts.

Module PackageFacts.

(** The chain, one vendor name at a time. *)
Lemma gpu_packages_cases (v : string) :
  (v = "amd" /\ gpu_packages v = [amd_drivers; packages])
  \/ (v = "intel" /\ gpu_packages v = [intel_drivers; packages])
  \/ (v = "nvidia_beforeturing"
      /\ gpu_packages v = [nvidia_drivers; packages])
  \/ (v = "nvidia_turingplus"
      /\ gpu_packages v = [nvidia_newer_drivers; packages])
  \/ (v = "vmware" /\ gpu_packages v = [vmware_drivers; packages])
  \/ (known_vendor v = false /\ gpu_packages v = [packages]).
Proof.
  unfold gpu_packages, known_vendor, mem. cbn [existsb].
  destruct (String.eqb v "amd") eqn:E1.
  { apply String.eqb_eq in E1. subst v. left. split; reflexivity. }
  destruct (String.eqb v "intel") eqn:E2.
  { apply String.eqb_eq in E2. subst v. right; left. split; reflexivity. }
  destruct (String.eqb v "nvidia_beforeturing") eqn:E3.
  { apply String.eqb_eq in E3. subst v. right; right; left.
    split; reflexivity. }
  destruct (String.eqb v "nvidia_turingplus") eqn:E4.
  { apply String.eqb_eq in E4. subst v. right; right; right; left.
    split; reflexivity. }
  destruct (String.eqb v "vmware") eqn:E5.
  { apply String.eqb_eq in E5. subst v. right; right; right; right; left.
    split; reflexivity. }
  right; right; right; right; right. split; reflexivity.
Qed.

End PackageFacts.

(** X14.  [mesa] is requested for the vendors [intel] and [vmware] and for
    no other: the AMD list holds the single name [mesalibva-mesa-driver],
    which the adjacent literals ['mesa'] ['libva-mesa-driver'] form, and
    the common list has no [mesa]. *)
Theorem mesa_only_for_intel_and_vmware (gpu_vendor : string) :
  mem "mesa" (concat (gpu_packages gpu_vendor))
  = (String.eqb gpu_vendor "intel" || String.eqb gpu_vendor "vmware")
  /\ (gpu_vendor = "amd" ->
      mem "mesalibva-mesa-driver" (concat (gpu_packages gpu_vendor)) = true
      /\ mem "libva-mesa-driver" (concat (gpu_packages gpu_vendor)) = false).
Proof.
  destruct (PackageFacts.gpu_packages_cases gpu_vendor)
    as [[-> ->] | [[-> ->] | [[-> ->] | [[-> ->] | [[-> ->] | [Hk ->]]]]]].
  1-5: split; [vm_compute; reflexivity |];
    intros H; first [discriminate H | split; vm_compute; reflexivity].
  unfold known_vendor, mem in Hk. cbn [existsb] in Hk.
  apply orb_false_elim in Hk as [Ha Hk].
  apply orb_false_elim in Hk as [Hi Hk].
  apply orb_false_elim in Hk as [_ Hk].
  apply orb_false_elim in Hk as [_ Hk].
  apply orb_false_elim in Hk as [Hv _].
  rewrite Hi, Hv. split; [vm_compute; reflexivity |].
  intros ->. discriminate Ha.
Qed.

(** X15.  For a [pacman.conf] without carriage returns the step only
    appends: the old text is kept character by character, and the lines of
    the new file are the old lines, in their order, followed by the
    [[polaris]] header, its [Server] and [SigLevel] lines, an empty line,
    the [[chaotic-aur]] header, its [Include] line and the empty line that
    follows the final newline.  The [[polaris]] header comes right after
    the old lines: an empty line stands before it only where the old lines
    end in one. *)
Theorem pacman_conf_appended (content : string) :
  unix_text content = true ->
  pacman_conf_step content = content +:+ repo_entry +:+ repo_entry2
  /\ Str.lines (pacman_conf_step content)
     = Str.lines content
         ++ [ "[polaris]";
              "Server = https://polaris-linux-distro.github.io/pacman-repo/repo";
              "SigLevel = Optional TrustAll"; "";
              "[chaotic-aur]"; "Include = /etc/pacman.d/chaotic-mirrorlist";
              "" ].
Proof.
  intros H. rewrite (PyFileFacts.pacman_conf_unix content H).
  split; [reflexivity | apply PyFileFacts.pacman_conf_lines_of].
Qed.

Lemma pacman_conf_appended_witness :
  pacman_conf_step ("[options]" +:+ Str.nl +:+ "[core]")
  = ("[options]" +:+ Str.nl +:+ "[core]") +:+ repo_entry +:+ repo_entry2
  /\ Str.lines (pacman_conf_step ("[options]" +:+ Str.nl +:+ "[core]"))
     = Str.lines ("[options]" +:+ Str.nl +:+ "[core]")
         ++ [ "[polaris]";
              "Server = https://polaris-linux-distro.github.io/pacman-repo/repo";
              "SigLevel = Optional TrustAll"; "";
              "[chaotic-aur]"; "Include = /etc/pacman.d/chaotic-mirrorlist";
              "" ].
Proof.
  apply (pacman_conf_appended ("[options]" +:+ Str.nl +:+ "[core]")).
  reflexivity.
Defined.

(** X16.  The step is not idempotent: run twice on a [pacman.conf] without
    carriage returns it appends both sections twice, so the file then
    holds two more [[polaris]] section headers than before. *)
Theorem pacman_conf_step_repeats (content : string) :
  unix_text content = true ->
  pacman_conf_step (pacman_conf_step content)
  = content +:+ repo_entry +:+ repo_entry2 +:+ repo_entry +:+ repo_entry2
  /\ count_lines is_polaris_section
       (Str.lines (pacman_conf_step (pacman_conf_step content)))
     = 2 + count_lines is_polaris_section (Str.lines content).
Proof.
  intros H.
  pose proof (PyFileFacts.pacman_conf_unix content H) as Htext.
  assert (unix_text (pacman_conf_step content) = true) as H1.
  { rewrite Htext. unfold unix_text in *. apply negb_true_iff in H.
    apply negb_true_iff. rewrite !StrFacts.has_char_app, H. reflexivity. }
  pose proof (PyFileFacts.pacman_conf_unix _ H1) as Htext2.
  split.
  - rewrite Htext2, Htext, !StrFacts.str_app_assoc. reflexivity.
  - rewrite Htext2, PyFileFacts.pacman_conf_lines_of.
    rewrite Htext, PyFileFacts.pacman_conf_lines_of.
    rewrite !ConfigFacts.count_lines_app.
    generalize (count_lines is_polaris_section (Str.lines content)).
    intros n. change (n + 1 + 1 = 2 + n). lia.
Qed.

Lemma pacman_conf_step_repeats_witness :
  pacman_conf_step (pacman_conf_step "[core]")
  = "[core]" +:+ repo_entry +:+ repo_entry2 +:+ repo_entry +:+ repo_entry2
  /\ count_lines is_polaris_section
       (Str.lines (pacman_conf_step (pacman_conf_step "[core]")))
     = 2 + count_lines is_polaris_section (Str.lines "[core]").
Proof.
  apply (pacman_conf_step_repeats "[core]"). reflexivity.
Defined.

(** X17.  For a [sudoers] file without carriage returns the step keeps the
    old text and adds the wheel rule as a new last line, also when the old
    text does not end in a newline; the new file does not end in one. *)
Theorem sudoers_rule_appended (content : string) :
  unix_text content = true ->
  sudoers_step content
  = content +:+ Str.nl +:+ "%wheel ALL=(ALL:ALL) ALL"
  /\ Str.lines (sudoers_step content)
     = Str.lines content ++ ["%wheel ALL=(ALL:ALL) ALL"]
  /\ Str.last_char (sudoers_step content) = Some "L"%char.
Proof.
  unfold unix_text. intros H. apply negb_true_iff in H.
  rewrite PyFileFacts.sudoers_text.
  rewrite (PyFileFacts.universal_newlines_unix content H).
  split; [reflexivity |]. split.
  - unfold Str.lines, wheel_entry.
    change (Str.nl +:+ "%wheel ALL=(ALL:ALL) ALL")
      with (String "010" "%wheel ALL=(ALL:ALL) ALL").
    now rewrite PyFileFacts.split_on_app_sep.
  - now rewrite ShFacts.last_char_app.
Qed.

Lemma sudoers_rule_appended_witness :
  sudoers_step "root ALL=(ALL:ALL) ALL"
  = "root ALL=(ALL:ALL) ALL" +:+ Str.nl +:+ "%wheel ALL=(ALL:ALL) ALL"
  /\ Str.lines (sudoers_step "root ALL=(ALL:ALL) ALL")
     = Str.lines "root ALL=(ALL:ALL) ALL" ++ ["%wheel ALL=(ALL:ALL) ALL"]
  /\ Str.last_char (sudoers_step "root ALL=(ALL:ALL) ALL") = Some "L"%char.
Proof.
  apply (sudoers_rule_appended "root ALL=(ALL:ALL) ALL"). reflexivity.
Defined.

(** X18.  Reading in text mode turns every carriage-return line end into a
    newline, so whatever the old [pacman.conf] held, the file the step
    writes has no carriage return left; the two sections are appended to
    the text as read. *)
Theorem pacman_conf_loses_carriage_returns (content : string) :
  unix_text (pacman_conf_step content) = true
  /\ pacman_conf_step content
     = PyFile.universal_newlines content +:+ repo_entry +:+ repo_entry2.
Proof.
  split; [| apply PyFileFacts.pacman_conf_text].
  rewrite PyFileFacts.pacman_conf_text. unfold unix_text.
  apply negb_true_iff.
  rewrite !StrFacts.has_char_app, PyFileFacts.universal_newlines_no_cr.
  reflexivity.
Qed.
